(** * LegalHuB analytics report: [analytics/rights_report.py]

    A shallow embedding of the report script and the properties of its
    aggregation pipeline: loading, segment filters, top-N frequency
    ranking, chart files and the HTML report. *)

From Stdlib Require Import Ascii.
From stdpp Require Import base option list sorting strings pretty gmap fin_maps.

(** ** Text *)

(** [str.lower] on the ASCII range.  The comparisons of the script are with
    the words search, download and downloaded; no character outside A-Z
    lowercases to one of their letters, so the restriction to ASCII does
    not change any of the tests below. *)
Definition ascii_lower (c : ascii) : ascii :=
  let n := nat_of_ascii c in
  if (65 <=? n)%nat && (n <=? 90)%nat then ascii_of_nat (n + 32) else c.

Fixpoint lower (s : string) : string :=
  match s with
  | EmptyString => EmptyString
  | String c s' => String (ascii_lower c) (lower s')
  end.

Definition newline : string := String (ascii_of_nat 10) EmptyString.

(** [sep.join(parts)] *)
Fixpoint join (sep : string) (parts : list string) : string :=
  match parts with
  | [] => ""
  | [p] => p
  | p :: rest => p +:+ sep +:+ join sep rest
  end.

Fixpoint ends_with_slash (s : string) : bool :=
  match s with
  | EmptyString => false
  | String c EmptyString => bool_decide (c = "/"%char)
  | String _ s' => ends_with_slash s'
  end.

(** [os.path.join(a, b)] of posixpath, for two components. *)
Definition os_path_join (a b : string) : string :=
  if String.prefix "/" b then b
  else if bool_decide (a = "") || ends_with_slash a then a +:+ b
  else a +:+ "/" +:+ b.

(** ** Paths *)

(** the longest prefix of [l] without [c] *)
Fixpoint take_until (c : ascii) (l : list ascii) : list ascii :=
  match l with
  | [] => []
  | x :: l' => if decide (x = c) then [] else x :: take_until c l'
  end.

(** [l] from its first [c] on *)
Fixpoint drop_until (c : ascii) (l : list ascii) : list ascii :=
  match l with
  | [] => []
  | x :: l' => if decide (x = c) then l else drop_until c l'
  end.

(** [l] without its leading [c]s *)
Fixpoint strip (c : ascii) (l : list ascii) : list ascii :=
  match l with
  | [] => []
  | x :: l' => if decide (x = c) then strip c l' else l
  end.

Definition chars (s : string) : list ascii := String.list_ascii_of_string s.
Definition text (l : list ascii) : string := String.string_of_list_ascii l.

(** [os.path.dirname(p)]: [p] up to its last slash, without trailing
    slashes unless it consists of slashes only *)
Definition dirname (p : string) : string :=
  let head := drop_until "/" (reverse (chars p)) in
  if bool_decide (strip "/" head = []) then text (reverse head)
  else text (reverse (strip "/" head)).

(** [os.path.splitext(p)[1][1:]]: the characters after the last dot of the
    last component of [p], when a character other than a dot stands before
    that dot in the component; empty otherwise *)
Definition extension (p : string) : list ascii :=
  let base := reverse (take_until "/" (reverse (chars p))) in
  let rest := strip "." base in
  if bool_decide ("."%char ∈ rest) then reverse (take_until "." (reverse rest))
  else [].

(** the image formats [savefig] writes *)
Definition savefig_formats : list string :=
  ["eps"; "jpeg"; "jpg"; "pdf"; "pgf"; "png"; "ps"; "raw"; "rgba"; "svg";
   "svgz"; "tif"; "tiff"; "webp"].

(** The file [plt.savefig(path)] writes: with no extension the default
    format is used and [.png] is put after the path without its trailing
    dots; an extension must be, lowercased, one of the formats, and
    [None] stands for the ValueError of another extension. *)
Definition image_target (path : string) : option string :=
  let ext := extension path in
  if bool_decide (ext = []) then
    Some (text (reverse (strip "." (reverse (chars path)))) +:+ ".png")
  else if bool_decide (lower (text ext) ∈ savefig_formats) then Some path
  else None.

(** ** Frames and series *)

(** A cell of a loaded table: a value, written as text, or [None] for a
    missing value (NaN). *)
Abbreviation cell := (option string).

Abbreviation Series := (list cell).

(** A loaded table.  [text_columns] are the columns that pandas holds as
    text (object dtype with string values, which is also the dtype of every
    column of a table without rows); a column read as numbers, booleans or
    dates, or whose cells are all missing, is not among them.  The reader
    decides this, not the script. *)
Record DataFrame := mkFrame {
  columns : list string;
  rows : list (list cell);
  text_columns : list string
}.

Global Instance DataFrame_eq_dec : EqDecision DataFrame.
Proof. solve_decision. Defined.

(** position of a column label *)
Fixpoint col_index (name : string) (cols : list string) : option nat :=
  match cols with
  | [] => None
  | c :: cols' => if decide (c = name) then Some 0 else S <$> col_index name cols'
  end.

(** the cell of a row in column [i]; a short row reads as missing *)
Definition cell_at (i : nat) (r : list cell) : cell := default None (r !! i).

(** the cells of column [i], one per row *)
Definition col_cells (i : nat) (rs : list (list cell)) : Series :=
  cell_at i <$> rs.

(** [df[name]]: [None] stands for the KeyError of an absent label. *)
Definition df_col (df : DataFrame) (name : string) : option Series :=
  (λ i, col_cells i (rows df)) <$> col_index name (columns df).

(** [series.str.lower()] on a column of text: missing values stay missing.
    Whether the column has a [.str] accessor at all is settled by
    [str_accessor] below, before this is applied. *)
Definition str_lower (s : Series) : Series :=
  (λ c : cell, lower <$> c) <$> s.

(** [series == word] : a missing value compares false. *)
Definition series_eq (s : Series) (word : string) : list bool :=
  (λ c, match c with Some v => bool_decide (v = word) | None => false end) <$> s.

(** [series.isin(words)] *)
Definition isin (s : Series) (words : list string) : list bool :=
  (λ c, match c with Some v => bool_decide (v ∈ words) | None => false end) <$> s.

(** keep the positions where the mask is true *)
Fixpoint select {A} (xs : list A) (mask : list bool) : list A :=
  match xs, mask with
  | x :: xs', b :: mask' => if b then x :: select xs' mask' else select xs' mask'
  | _, _ => []
  end.

(** [df[mask]]: a new frame with the same columns, of the same dtypes, and
    the selected rows. *)
Definition df_mask (df : DataFrame) (mask : list bool) : DataFrame :=
  {| columns := columns df; rows := select (rows df) mask;
     text_columns := text_columns df |}.

(** [series.dropna()] *)
Definition dropna (s : Series) : Series :=
  filter (λ c : cell, c ≠ None) s.

(** [series.nunique()]: the number of distinct values, missing ones apart. *)
Fixpoint distinct (s : Series) : list cell :=
  match s with
  | [] => []
  | c :: s' => if decide (c ∈ s') then distinct s' else c :: distinct s'
  end.

Definition nunique (s : Series) : nat := length (distinct (dropna s)).

(** ** Frequency ranker *)

(** A frequency table: (value, count) pairs. *)
Abbreviation FrequencyTable := (list (cell * nat)).

(** One step of the hash-table count: a value seen before has its count
    raised in place, a new value is appended after the ones seen so far. *)
Fixpoint count_incr (v : cell) (tbl : FrequencyTable) : FrequencyTable :=
  match tbl with
  | [] => [(v, 1)]
  | (k, c) :: tbl' =>
      if decide (k = v) then (k, S c) :: tbl' else (k, c) :: count_incr v tbl'
  end.

Definition tally_step (tbl : FrequencyTable) (v : cell) : FrequencyTable :=
  match v with
  | None => tbl
  | Some _ => count_incr v tbl
  end.

(** the counts of the values of a series in order of first appearance,
    missing values skipped ([dropna=True]) *)
Definition tally (s : Series) : FrequencyTable := foldl tally_step [] s.

(** stable insertion by descending count: [x], which stood before every
    element of [l], stays before those whose count is not larger *)
Fixpoint insert_desc (x : cell * nat) (l : FrequencyTable) : FrequencyTable :=
  match l with
  | [] => [x]
  | y :: l' => if (x.2 <? y.2)%nat then y :: insert_desc x l' else x :: l
  end.

Definition sort_desc (l : FrequencyTable) : FrequencyTable :=
  foldr insert_desc [] l.

(** [series.value_counts()]: counts, highest first. *)
Definition value_counts (s : Series) : FrequencyTable := sort_desc (tally s).

(** [counts.nlargest(n)] with [keep="first"]: the [n] highest counts in
    descending order, equal counts in their order of appearance. *)
Definition nlargest (n : nat) (t : FrequencyTable) : FrequencyTable :=
  take n (sort_desc t).

(** line 29 of [plot_and_save]: [series.value_counts().nlargest(top_n)] *)
Definition top (series : Series) (top_n : nat) : FrequencyTable :=
  nlargest top_n (value_counts series).

(** number of cells of [s] equal to [v] *)
Definition occurrences (v : cell) (s : Series) : nat :=
  length (filter (λ c, c = v) s).

(** position of the first cell of [s] equal to [v] *)
Fixpoint first_index (v : cell) (s : Series) : option nat :=
  match s with
  | [] => None
  | c :: s' => if decide (c = v) then Some 0 else S <$> first_index v s'
  end.

(** ** Files, exceptions and the process state *)

Inductive Exception :=
  | FileNotFoundError (msg : string)
  | FileExistsError (path : string)
  | IsADirectoryError (path : string)
  | ParserError (path : string)
  | ValueError (msg : string)
  | KeyError (key : string)
  | PlotError (msg : string)
  | IndexError (msg : string)
  | ReferenceError (r : nat)
  | AttributeError (msg : string)
  | NotADirectoryError (path : string).

Global Instance Exception_eq_dec : EqDecision Exception.
Proof. solve_decision. Defined.

(** What a saved chart shows. *)
Record Figure := mkFigure {
  fig_title : string;
  fig_xlabel : string;
  fig_ylabel : string;
  bars : FrequencyTable
}.

Global Instance Figure_eq_dec : EqDecision Figure.
Proof. solve_decision. Defined.

(** A path holds a directory, an input file (given by what the CSV reader
    makes of its bytes: a table, or [None] when they do not parse), a chart
    image or a text file. *)
Inductive Node :=
  | Dir
  | CsvFile (parsed : option DataFrame)
  | PngFile (fig : Figure)
  | TextFile (text : string).

Global Instance Node_eq_dec : EqDecision Node.
Proof. solve_decision. Defined.

(** The file system, the lines printed so far, the paths the process has
    written so far, and the frame objects of the process, addressed by
    their position. *)
Record State := mkState {
  fs : gmap string Node;
  stdout : list string;
  written : list string;
  heap : list DataFrame
}.

Inductive Result (A : Type) :=
  | Ok (a : A)
  | Raise (e : Exception).
Arguments Ok {A} a.
Arguments Raise {A} e.

Definition M (A : Type) : Type := State → Result A * State.

Global Instance M_ret : MRet M := λ A a st, (Ok a, st).
Global Instance M_bind : MBind M := λ A B f m st,
  match m st with
  | (Ok a, st') => f a st'
  | (Raise e, st') => (Raise e, st')
  end.

Definition raise {A} (e : Exception) : M A := λ st, (Raise e, st).

Definition print (line : string) : M unit := λ st,
  (Ok (), mkState (fs st) (stdout st ++ [line]) (written st) (heap st)).

(** [os.path.exists] *)
Definition os_path_exists (path : string) : M bool := λ st,
  (Ok (bool_decide (is_Some (fs st !! path))), st).

(** [os.makedirs(path, exist_ok=True)] for a one-component path *)
Definition os_makedirs (path : string) : M unit := λ st,
  match fs st !! path with
  | None => (Ok (), mkState (<[path := Dir]> (fs st)) (stdout st) (written st) (heap st))
  | Some Dir => (Ok (), st)
  | Some _ => (Raise (FileExistsError path), st)
  end.

(** Opening [path] for writing: the directory of the path must be there
    (the working directory and the root always are), and the path must not
    be a directory; the file is created or overwritten. *)
Definition write_node (path : string) (n : Node) : M unit := λ st,
  let d := dirname path in
  if bool_decide (strip "/" (chars d) = []) || bool_decide (fs st !! d = Some Dir)
  then
    match fs st !! path with
    | Some Dir => (Raise (IsADirectoryError path), st)
    | _ => (Ok (), mkState (<[path := n]> (fs st)) (stdout st)
                     (written st ++ [path]) (heap st))
    end
  else
    match fs st !! d with
    | None => (Raise (FileNotFoundError path), st)
    | Some _ => (Raise (NotADirectoryError path), st)
    end.

(** [plt.savefig(path)]: the format is settled first, then the file is
    written *)
Definition savefig (path : string) (fig : Figure) : M unit :=
  match image_target path with
  | Some target => write_node target (PngFile fig)
  | None => raise (ValueError ("Format '" +:+ lower (text (extension path))
                               +:+ "' is not supported (supported formats: "
                               +:+ join ", " savefig_formats +:+ ")"))
  end.

(** a new frame object *)
Definition alloc (d : DataFrame) : M nat := λ st,
  (Ok (length (heap st)), mkState (fs st) (stdout st) (written st) (heap st ++ [d])).

Definition deref (r : nat) : M DataFrame := λ st,
  match heap st !! r with
  | Some d => (Ok d, st)
  | None => (Raise (ReferenceError r), st)
  end.

(** the labels of [dates] that are not columns of the table, as the
    reader names them: each once, sorted, joined by a comma *)
Definition missing_dates (d : DataFrame) (dates : list string) : string :=
  join ", " (merge_sort (λ a b, String.leb a b)
               (remove_dups (filter (λ c, c ∉ columns d) dates))).

(** [pd.read_csv(path, parse_dates=dates)]: the frame is a new object; a
    label of [dates] that is not a column is a ValueError that names it.
    The parsed dates themselves are not looked at by the script. *)
Definition read_csv (path : string) (dates : list string) : M nat := λ st,
  match fs st !! path with
  | None => (Raise (FileNotFoundError path), st)
  | Some Dir => (Raise (IsADirectoryError path), st)
  | Some (CsvFile (Some d)) =>
      let missing := missing_dates d dates in
      if bool_decide (missing = "") then alloc d st
      else (Raise (ValueError ("Missing column provided to 'parse_dates': '"
                               +:+ missing +:+ "'")), st)
  | Some _ => (Raise (ParserError path), st)
  end.

(** [df[name]] on a frame object *)
Definition getitem (r : nat) (name : string) : M Series :=
  d ← deref r;
  match df_col d name with
  | Some s => mret s
  | None => raise (KeyError name)
  end.

(** [df[mask]] on a frame object: the selection is a new object *)
Definition getitem_mask (r : nat) (mask : list bool) : M nat :=
  d ← deref r; alloc (df_mask d mask).

(** [name in df.columns] *)
Definition has_column (r : nat) (name : string) : M bool :=
  d ← deref r; mret (bool_decide (name ∈ columns d)).

Definition len (r : nat) : M nat :=
  d ← deref r; mret (length (rows d)).

(** ** The script *)

Definition INPUT_CSV : string := "user_activity.csv".
Definition OUT_DIR : string := "analytics_reports".

(** The plotting library is outside the script: [top.plot(kind="bar")]
    either draws the table or raises; [None] means it draws. *)
Abbreviation Backend := (FrequencyTable → option Exception).

Definition bar_plot (B : Backend) (t : FrequencyTable) : M unit :=
  match B t with
  | None => mret ()
  | Some e => raise e
  end.

Definition load_data (path : string) : M nat :=
  ex ← os_path_exists path;
  if negb ex then
    raise (FileNotFoundError
             (path +:+ " not found. Provide a sample CSV as described in README."))
  else
    df ← read_csv path ["timestamp"];
    mret df.

Definition plot_and_save (B : Backend) (series : Series) (title fname : string)
    (xlabel ylabel : string) (top_n : nat) : M string :=
  let top := top series top_n in
  bar_plot B top;;
  let fig := {| fig_title := title;
                fig_xlabel := if bool_decide (xlabel = "") then "" else xlabel;
                fig_ylabel := ylabel;
                bars := top |} in
  let outpath := os_path_join OUT_DIR fname in
  savefig outpath fig;;
  mret outpath.

(** a value of the [stats] dict *)
Inductive StatValue :=
  | IntStat (n : nat)
  | StrStat (s : string).

Definition format_stat (v : StatValue) : string :=
  match v with
  | IntStat n => pretty n
  | StrStat s => s
  end.

Definition stat_line (kv : string * StatValue) : string :=
  "<li><strong>" +:+ kv.1 +:+ ":</strong> " +:+ format_stat kv.2 +:+ "</li>".

(** truth value of [p1], [p2], [p3]: a path or [None] *)
Definition truthy (p : option string) : bool :=
  match p with
  | Some s => negb (bool_decide (s = ""))
  | None => false
  end.

Definition searched_section : list string :=
  ["<h2>Top Searched Terms</h2>";
   "<img src='top_searched_terms.png' alt='Top searched terms' style='max-width:800px'>"].
Definition downloaded_section : list string :=
  ["<h2>Top Downloaded Forms</h2>";
   "<img src='top_downloaded_forms.png' alt='Top downloaded forms' style='max-width:800px'>"].
Definition categories_section : list string :=
  ["<h2>Top Categories</h2>";
   "<img src='top_categories.png' alt='Top categories' style='max-width:800px'>"].

(** the list [html] of [main], line by line *)
Definition report_lines (stats : list (string * StatValue))
    (p1 p2 p3 : option string) : list string :=
  ["<html><head><meta charset='utf-8'><title>LegalHuB Analytics Report</title></head><body>";
   "<h1>LegalHuB Analytics Report</h1>";
   "<h2>Summary</h2>";
   "<ul>"]
  ++ (stat_line <$> stats)
  ++ ["</ul>"]
  ++ (if truthy p1 then searched_section else [])
  ++ (if truthy p2 then downloaded_section else [])
  ++ (if truthy p3 then categories_section else [])
  ++ ["</body></html>"].

(** [df[name].str]: the string accessor of a column, which pandas refuses
    with an AttributeError on a column it does not hold as text *)
Definition str_accessor (df : nat) (name : string) : M unit :=
  d ← deref df;
  if bool_decide (name ∈ text_columns d) then mret ()
  else raise (AttributeError "Can only use .str accessor with string values!").

(** line 46: [df[df["action"].str.lower() == "search"]] *)
Definition search_filter (df : nat) : M nat :=
  action ← getitem df "action";
  str_accessor df "action";;
  getitem_mask df (series_eq (str_lower action) "search").

(** line 54: [df[df["action"].str.lower().isin(["download", "downloaded"])]] *)
Definition download_filter (df : nat) : M nat :=
  action ← getitem df "action";
  str_accessor df "action";;
  getitem_mask df (isin (str_lower action) ["download"; "downloaded"]).

Definition main (B : Backend) : M unit :=
  print "Loading data...";;
  df ← load_data INPUT_CSV;
  (* Most searched terms *)
  searches ← search_filter df;
  has_term ← has_column df "term";
  p1 ← (if has_term : bool then
          print "Computing most searched terms...";;
          term ← getitem searches "term";
          p ← plot_and_save B (dropna term) "Top Searched Legal Terms"
                "top_searched_terms.png" "Term" "Count" 10;
          mret (Some p)
        else mret None);
  (* Most downloaded forms *)
  downloads ← download_filter df;
  has_form_id ← has_column df "form_id";
  p2 ← (if has_form_id : bool then
          print "Computing most downloaded forms...";;
          form_id ← getitem downloads "form_id";
          p ← plot_and_save B (dropna form_id) "Top Downloaded Forms"
                "top_downloaded_forms.png" "Form ID" "Count" 10;
          mret (Some p)
        else mret None);
  (* Common categories of user queries (or visits) *)
  has_category ← has_column df "category";
  p3 ← (if has_category : bool then
          print "Computing top categories...";;
          category ← getitem df "category";
          p ← plot_and_save B (dropna category) "Top Categories"
                "top_categories.png" "Category" "Count" 10;
          mret (Some p)
        else mret None);
  (* Basic usage stats table *)
  total_events ← len df;
  has_user_id ← has_column df "user_id";
  unique_users ← (if has_user_id : bool then
                    user_id ← getitem df "user_id";
                    mret (IntStat (nunique user_id))
                  else mret (StrStat "N/A"));
  total_searches ← len searches;
  let stats := [("total_events", IntStat total_events);
                ("unique_users", unique_users);
                ("total_searches", IntStat total_searches)] in
  (* Create a simple HTML report *)
  let html := report_lines stats p1 p2 p3 in
  let report_path := os_path_join OUT_DIR "report.html" in
  write_node report_path (TextFile (join newline html));;
  print ("Report and charts saved to " +:+ OUT_DIR +:+ "/");;
  print "Open analytics_reports/report.html in your browser to view.".

(** The module body: the output directory is made when the module is
    loaded (line 20), [main] runs last (line 106). *)
Definition script (B : Backend) : M unit :=
  os_makedirs OUT_DIR;;
  main B.

(** a run of the script as a process started on the file system [f] *)
Definition run (B : Backend) (f : gmap string Node) : Result unit * State :=
  script B (mkState f [] [] []).

(** ** Orders on table entries *)

(** counts do not increase from [a] to [b] *)
Definition desc (a b : cell * nat) : Prop := (b.2 ≤ a.2)%nat.

(** [a] first appears in [s] before [b] first appears *)
Definition earlier (s : Series) (a b : cell) : Prop :=
  ∃ i j, first_index a s = Some i ∧ first_index b s = Some j ∧ (i < j)%nat.

(** descending by count, and by [R] among equal counts *)
Definition ranked (R : relation cell) (a b : cell * nat) : Prop :=
  (b.2 < a.2)%nat ∨ (a.2 = b.2 ∧ R a.1 b.1).

(** What the count holds after a series has been read. *)
Record tally_inv (s : Series) (tbl : FrequencyTable) : Prop := {
  inv_nodup : NoDup tbl.*1;
  inv_entry : ∀ k c, (k, c) ∈ tbl → k ≠ None ∧ k ∈ s ∧ c = occurrences k s;
  inv_all : ∀ k, k ≠ None → k ∈ s → k ∈ tbl.*1;
  inv_order : StronglySorted (earlier s) tbl.*1
}.

(** ** Action classes, as the segments are described *)

(** the action, lowercased, is the word search *)
Definition is_search (c : cell) : Prop := lower <$> c = Some "search".

(** the action, lowercased, is one of the words download and downloaded *)
Definition is_download (c : cell) : Prop :=
  lower <$> c = Some "download" ∨ lower <$> c = Some "downloaded".

Global Instance is_search_dec c : Decision (is_search c).
Proof. unfold is_search. apply _. Defined.

Global Instance is_download_dec c : Decision (is_download c).
Proof. unfold is_download. apply _. Defined.

(** ** What a completed run leaves behind *)

(** the two segments, as frames *)
Definition search_rows (df : DataFrame) (action : Series) : DataFrame :=
  df_mask df (series_eq (str_lower action) "search").

Definition download_rows (df : DataFrame) (action : Series) : DataFrame :=
  df_mask df (isin (str_lower action) ["download"; "downloaded"]).

(** the chart of a topic, when its column is there *)
Definition chart (seg : DataFrame) (col title xlabel : string) : option Figure :=
  (λ s, mkFigure title xlabel "Count" (top (dropna s) 10)) <$> df_col seg col.

Definition terms_chart (df : DataFrame) (action : Series) : option Figure :=
  chart (search_rows df action) "term" "Top Searched Legal Terms" "Term".
Definition forms_chart (df : DataFrame) (action : Series) : option Figure :=
  chart (download_rows df action) "form_id" "Top Downloaded Forms" "Form ID".
Definition categories_chart (df : DataFrame) : option Figure :=
  chart df "category" "Top Categories" "Category".

Definition terms_png : string := "analytics_reports/top_searched_terms.png".
Definition forms_png : string := "analytics_reports/top_downloaded_forms.png".
Definition categories_png : string := "analytics_reports/top_categories.png".
Definition report_html : string := "analytics_reports/report.html".


Definition stats_of (df : DataFrame) (action : Series) : list (string * StatValue) :=
  [("total_events", IntStat (length (rows df)));
   ("unique_users", match df_col df "user_id" with
                    | Some u => IntStat (nunique u)
                    | None => StrStat "N/A"
                    end);
   ("total_searches", IntStat (length (rows (search_rows df action))))].

Definition report_of (df : DataFrame) (action : Series) : list string :=
  report_lines (stats_of df action)
    ((λ _, terms_png) <$> terms_chart df action)
    ((λ _, forms_png) <$> forms_chart df action)
    ((λ _, categories_png) <$> categories_chart df).

Definition save (path : string) (c : option Figure) (f : gmap string Node) :
    gmap string Node :=
  match c with
  | Some fig => <[path := PngFile fig]> f
  | None => f
  end.

Definition when {A} (c : option Figure) (x : A) : list A :=
  match c with
  | Some _ => [x]
  | None => []
  end.

(** the file system once the output directory has been made *)
Definition made (f : gmap string Node) : gmap string Node :=
  match f !! OUT_DIR with
  | None => <[OUT_DIR := Dir]> f
  | Some _ => f
  end.

(** the state a run that completes on the table [df] ends in *)
Definition final_state (f : gmap string Node) (df : DataFrame) (action : Series) : State :=
  let c1 := terms_chart df action in
  let c2 := forms_chart df action in
  let c3 := categories_chart df in
  {| fs := <[report_html := TextFile (join newline (report_of df action))]>
             (save categories_png c3 (save forms_png c2 (save terms_png c1 (made f))));
     stdout := ["Loading data..."]
               ++ when c1 "Computing most searched terms..."
               ++ when c2 "Computing most downloaded forms..."
               ++ when c3 "Computing top categories..."
               ++ ["Report and charts saved to analytics_reports/";
                   "Open analytics_reports/report.html in your browser to view."];
     written := when c1 terms_png ++ when c2 forms_png ++ when c3 categories_png
                ++ [report_html];
     heap := [df; search_rows df action; download_rows df action] |}.

(** the backend draws the chart and its path is free for a file *)
Definition drawable (B : Backend) (f : gmap string Node) (path : string)
    (c : option Figure) : Prop :=
  match c with
  | Some fig => B (bars fig) = None ∧ f !! path ≠ Some Dir
  | None => True
  end.

(** what it takes for a run on [f] to complete *)
Definition completes (B : Backend) (f : gmap string Node) (df : DataFrame)
    (action : Series) : Prop :=
  (f !! OUT_DIR = None ∨ f !! OUT_DIR = Some Dir) ∧
  f !! INPUT_CSV = Some (CsvFile (Some df)) ∧
  "timestamp" ∈ columns df ∧
  df_col df "action" = Some action ∧
  drawable B f terms_png (terms_chart df action) ∧
  drawable B f forms_png (forms_chart df action) ∧
  drawable B f categories_png (categories_chart df) ∧
  f !! report_html ≠ Some Dir ∧
  "action" ∈ text_columns df.

(** the message of [load_data] for the input path of the script *)
Definition missing_msg : string :=
  "user_activity.csv not found. Provide a sample CSV as described in README.".

(** ** How a run stops short *)

(** the output directory could be made and the input is a table with a
    [timestamp] column *)
Definition loaded (f : gmap string Node) (df : DataFrame) : Prop :=
  (f !! OUT_DIR = None ∨ f !! OUT_DIR = Some Dir) ∧
  f !! INPUT_CSV = Some (CsvFile (Some df)) ∧
  "timestamp" ∈ columns df.

(** the chart [fig] cannot be saved at [path]: the backend raises on its
    table, or the path is a directory *)
Definition chart_fails (B : Backend) (f : gmap string Node) (path : string)
    (fig : Figure) (e : Exception) : Prop :=
  B (bars fig) = Some e ∨
  (B (bars fig) = None ∧ f !! path = Some Dir ∧ e = IsADirectoryError path).

(** the state in which [load_data] is called *)
Definition at_load (f : gmap string Node) : State :=
  mkState (made f) ["Loading data..."] [] [].

(** The ways a run ends in an exception, each with the state it leaves. *)
Inductive Aborts (B : Backend) (f : gmap string Node) : Exception → State → Prop :=
  | abort_outdir n :
      f !! OUT_DIR = Some n → n ≠ Dir →
      Aborts B f (FileExistsError OUT_DIR) (mkState f [] [] [])
  | abort_missing :
      f !! OUT_DIR = None ∨ f !! OUT_DIR = Some Dir →
      f !! INPUT_CSV = None →
      Aborts B f (FileNotFoundError missing_msg) (at_load f)
  | abort_input_dir :
      f !! OUT_DIR = None ∨ f !! OUT_DIR = Some Dir →
      f !! INPUT_CSV = Some Dir →
      Aborts B f (IsADirectoryError INPUT_CSV) (at_load f)
  | abort_parse n :
      f !! OUT_DIR = None ∨ f !! OUT_DIR = Some Dir →
      f !! INPUT_CSV = Some n → n ≠ Dir → (∀ df, n ≠ CsvFile (Some df)) →
      Aborts B f (ParserError INPUT_CSV) (at_load f)
  | abort_dates df :
      f !! OUT_DIR = None ∨ f !! OUT_DIR = Some Dir →
      f !! INPUT_CSV = Some (CsvFile (Some df)) → "timestamp" ∉ columns df →
      Aborts B f (ValueError "Missing column provided to 'parse_dates': 'timestamp'") (at_load f)
  | abort_action df :
      loaded f df → "action" ∉ columns df →
      Aborts B f (KeyError "action")
        (mkState (made f) ["Loading data..."] [] [df])
  | abort_accessor df :
      loaded f df → "action" ∈ columns df → "action" ∉ text_columns df →
      Aborts B f (AttributeError "Can only use .str accessor with string values!")
        (mkState (made f) ["Loading data..."] [] [df])
  | abort_terms df action fig e :
      loaded f df → df_col df "action" = Some action →
      "action" ∈ text_columns df →
      terms_chart df action = Some fig →
      chart_fails B f terms_png fig e →
      Aborts B f e
        (mkState (made f)
           ["Loading data..."; "Computing most searched terms..."] []
           [df; search_rows df action])
  | abort_forms df action fig e :
      loaded f df → df_col df "action" = Some action →
      "action" ∈ text_columns df →
      drawable B f terms_png (terms_chart df action) →
      forms_chart df action = Some fig →
      chart_fails B f forms_png fig e →
      Aborts B f e
        (mkState (save terms_png (terms_chart df action) (made f))
           (["Loading data..."]
            ++ when (terms_chart df action) "Computing most searched terms..."
            ++ ["Computing most downloaded forms..."])
           (when (terms_chart df action) terms_png)
           [df; search_rows df action; download_rows df action])
  | abort_categories df action fig e :
      loaded f df → df_col df "action" = Some action →
      "action" ∈ text_columns df →
      drawable B f terms_png (terms_chart df action) →
      drawable B f forms_png (forms_chart df action) →
      categories_chart df = Some fig →
      chart_fails B f categories_png fig e →
      Aborts B f e
        (mkState (save forms_png (forms_chart df action)
                    (save terms_png (terms_chart df action) (made f)))
           (["Loading data..."]
            ++ when (terms_chart df action) "Computing most searched terms..."
            ++ when (forms_chart df action) "Computing most downloaded forms..."
            ++ ["Computing top categories..."])
           (when (terms_chart df action) terms_png
            ++ when (forms_chart df action) forms_png)
           [df; search_rows df action; download_rows df action])
  | abort_report df action :
      loaded f df → df_col df "action" = Some action →
      "action" ∈ text_columns df →
      drawable B f terms_png (terms_chart df action) →
      drawable B f forms_png (forms_chart df action) →
      drawable B f categories_png (categories_chart df) →
      f !! report_html = Some Dir →
      Aborts B f (IsADirectoryError report_html)
        (mkState (save categories_png (categories_chart df)
                    (save forms_png (forms_chart df action)
                       (save terms_png (terms_chart df action) (made f))))
           (["Loading data..."]
            ++ when (terms_chart df action) "Computing most searched terms..."
            ++ when (forms_chart df action) "Computing most downloaded forms..."
            ++ when (categories_chart df) "Computing top categories...")
           (when (terms_chart df action) terms_png
            ++ when (forms_chart df action) forms_png
            ++ when (categories_chart df) categories_png)
           [df; search_rows df action; download_rows df action]).

(** the paths a run may touch *)
Definition outputs : list string :=
  [OUT_DIR; terms_png; forms_png; categories_png; report_html].

(** ** Sample inputs *)

(** a backend that draws every table *)
Definition draws_all : Backend := λ _, None.

(** a backend that raises on a table without bars, as the bar plot of
    an empty series does, and draws the others *)
Definition raises_on_empty : Backend := λ t,
  match t with
  | [] => Some (IndexError "index 0 is out of bounds for axis 0 with size 0")
  | _ => None
  end.

(** a table without an [action] column *)
Definition no_action_df : DataFrame :=
  mkFrame ["timestamp"; "term"] [[Some "2024-01-01"; Some "bail"]] ["term"].
Definition no_action_fs : gmap string Node :=
  {[ INPUT_CSV := CsvFile (Some no_action_df) ]}.

(** a file that is not a table *)
Definition garbage_fs : gmap string Node := {[ INPUT_CSV := CsvFile None ]}.

(** a [form_id] column that is missing on every download row *)
Definition null_forms_df : DataFrame :=
  mkFrame ["timestamp"; "action"; "form_id"]
    [[Some "2024-01-01"; Some "download"; None];
     [Some "2024-01-02"; Some "Downloaded"; None];
     [Some "2024-01-03"; Some "search"; Some "F1"]]
    ["action"; "form_id"].
Definition null_forms_fs : gmap string Node :=
  {[ INPUT_CSV := CsvFile (Some null_forms_df) ]}.

(** a table with a header and no rows *)
Definition zero_rows_df : DataFrame :=
  mkFrame ["timestamp"; "action"; "term"; "form_id"; "category"; "user_id"] []
    ["action"; "term"; "form_id"; "category"; "user_id"].
Definition zero_rows_fs : gmap string Node :=
  {[ INPUT_CSV := CsvFile (Some zero_rows_df) ]}.

(** a small activity log with every column *)
Definition sample_df : DataFrame :=
  mkFrame ["timestamp"; "action"; "term"; "form_id"; "category"; "user_id"]
    [[Some "2024-01-01"; Some "Search"; Some "bail"; None; Some "criminal"; Some "u1"];
     [Some "2024-01-01"; Some "SEARCH"; Some "writ"; None; Some "civil"; Some "u2"];
     [Some "2024-01-02"; Some "download"; None; Some "F7"; Some "civil"; Some "u1"];
     [Some "2024-01-02"; Some "search"; Some "bail"; None; None; Some "u3"];
     [Some "2024-01-03"; Some "Downloaded"; None; Some "F2"; Some "family"; None];
     [Some "2024-01-03"; Some "view"; Some "bail"; Some "F7"; Some "civil"; Some "u2"];
     [Some "2024-01-04"; Some "search"; None; None; Some "family"; Some "u1"]]
    ["action"; "term"; "form_id"; "category"; "user_id"].
Definition sample_fs : gmap string Node :=
  {[ INPUT_CSV := CsvFile (Some sample_df) ]}.

(** a table with every column but [timestamp] *)
Definition no_timestamp_df : DataFrame :=
  mkFrame ["action"; "term"] [[Some "search"; Some "bail"]] ["action"; "term"].
Definition no_timestamp_fs : gmap string Node :=
  {[ INPUT_CSV := CsvFile (Some no_timestamp_df) ]}.

(** a file where the output directory should be *)
Definition blocked_fs : gmap string Node :=
  {[ INPUT_CSV := CsvFile (Some sample_df); OUT_DIR := TextFile "notes" ]}.


(** an [action] column that is missing on every row, which pandas reads
    as a column of numbers (all NaN), not of text *)
Definition null_action_df : DataFrame :=
  mkFrame ["timestamp"; "action"; "term"]
    [[Some "2024-01-01"; None; Some "bail"];
     [Some "2024-01-02"; None; Some "writ"]]
    ["term"].
Definition null_action_fs : gmap string Node :=
  {[ INPUT_CSV := CsvFile (Some null_action_df) ]}.

(** an [action] column of numbers *)
Definition numeric_action_df : DataFrame :=
  mkFrame ["timestamp"; "action"] [[Some "2024-01-01"; Some "1"]] [].
Definition numeric_action_fs : gmap string Node :=
  {[ INPUT_CSV := CsvFile (Some numeric_action_df) ]}.

(** * Properties *)

(** ** The stable sort *)

Lemma insert_desc_perm x l : insert_desc x l ≡ₚ x :: l.
Proof.
  induction l as [|y l IH]; simpl; [done|].
  destruct (x.2 <? y.2)%nat; [|done].
  by rewrite IH, Permutation_swap.
Qed.

Lemma sort_desc_perm l : sort_desc l ≡ₚ l.
Proof.
  induction l as [|x l IH]; simpl; [done|].
  by rewrite insert_desc_perm, IH.
Qed.

Section stable.
Variable R : relation cell.

Lemma ranked_desc a b : ranked R a b → desc a b.
Proof. unfold ranked, desc. lia. Qed.

Lemma insert_desc_ranked x l :
  StronglySorted (ranked R) l →
  Forall (λ y, R x.1 y.1) l →
  StronglySorted (ranked R) (insert_desc x l).
Proof.
  induction 1 as [|y l Hl IH Hy]; intros Hx; simpl.
  { by repeat constructor. }
  apply Forall_cons in Hx as [Hxy Hx].
  destruct (Nat.ltb_spec x.2 y.2) as [Hlt|Hge].
  - constructor; [by apply IH|].
    rewrite insert_desc_perm. constructor; [by left|done].
  - constructor; [by constructor|].
    assert (ranked R x y) as Hr.
    { unfold ranked. destruct (decide (x.2 = y.2)); [by right|left; lia]. }
    constructor; [done|].
    rewrite Forall_forall in Hy, Hx |- *. intros z Hz.
    specialize (Hy z Hz). specialize (Hx z Hz).
    apply ranked_desc in Hy. unfold desc in Hy. unfold ranked.
    destruct (decide (x.2 = z.2)); [by right|left; lia].
Qed.

Lemma sort_desc_ranked l :
  StronglySorted (λ a b, R a.1 b.1) l → StronglySorted (ranked R) (sort_desc l).
Proof.
  induction 1 as [|x l Hl IH Hx]; simpl; [constructor|].
  apply insert_desc_ranked; [done|]. by rewrite sort_desc_perm.
Qed.
End stable.

Lemma StronglySorted_mono {A} (R1 R2 : relation A) l :
  (∀ x y, R1 x y → R2 x y) → StronglySorted R1 l → StronglySorted R2 l.
Proof.
  intros HR. induction 1; constructor; eauto using Forall_impl.
Qed.

Lemma StronglySorted_take {A} (R : relation A) n l :
  StronglySorted R l → StronglySorted R (take n l).
Proof.
  intros H. rewrite <-(take_drop n l) in H. by apply StronglySorted_app_1_l in H.
Qed.

Lemma StronglySorted_lookup {A} (R : relation A) l i j a b :
  StronglySorted R l → l !! i = Some a → l !! j = Some b → (i < j)%nat → R a b.
Proof.
  intros H. revert i j. induction H as [|x l Hl IH Hx]; intros i j Hi Hj Hij.
  { done. }
  destruct j as [|j]; [lia|]. simpl in Hj.
  destruct i as [|i]; simpl in Hi.
  - simplify_eq. rewrite Forall_forall in Hx. apply Hx.
    by eapply list_elem_of_lookup_2.
  - eapply IH; eauto. lia.
Qed.

Lemma sort_desc_sorted l : StronglySorted desc (sort_desc l).
Proof.
  apply (StronglySorted_mono (ranked (λ _ _, True))); [apply ranked_desc|].
  apply sort_desc_ranked. induction l; constructor; [done|].
  by apply Forall_true.
Qed.

Lemma insert_desc_head x l : Forall (desc x) l → insert_desc x l = x :: l.
Proof.
  destruct 1 as [|y l Hy _]; simpl; [done|].
  unfold desc in Hy. destruct (Nat.ltb_spec x.2 y.2); [lia|done].
Qed.

(** sorting a table that is already in descending order changes nothing *)
Lemma sort_desc_id l : StronglySorted desc l → sort_desc l = l.
Proof.
  induction 1 as [|x l Hl IH Hx]; simpl; [done|].
  rewrite IH. by apply insert_desc_head.
Qed.

Lemma top_unfold s n : top s n = take n (sort_desc (tally s)).
Proof.
  unfold top, nlargest, value_counts. by rewrite (sort_desc_id _ (sort_desc_sorted _)).
Qed.

(** ** First appearances *)

Lemma first_index_None (v : cell) (s : Series) : first_index v s = None ↔ v ∉ s.
Proof.
  induction s as [|c s IH]; simpl.
  { split; [intros _; apply not_elem_of_nil|done]. }
  rewrite not_elem_of_cons. destruct (decide (c = v)) as [->|Hne].
  - split; [done|]. intros [? _]. done.
  - rewrite fmap_None, IH. split; [by intros ?; split|by intros [_ ?]].
Qed.

Lemma first_index_is_Some (v : cell) (s : Series) : is_Some (first_index v s) ↔ v ∈ s.
Proof.
  rewrite <-not_eq_None_Some, first_index_None.
  destruct (decide (v ∈ s)); naive_solver.
Qed.

Lemma first_index_lt v s i : first_index v s = Some i → (i < length s)%nat.
Proof.
  revert i. induction s as [|c s IH]; intros i; simpl; [done|].
  destruct (decide (c = v)); [intros [= <-]; lia|].
  destruct (first_index v s) as [k|]; simpl; [|done].
  intros [= <-]. specialize (IH k eq_refl). lia.
Qed.

Lemma first_index_app v s t :
  first_index v (s ++ t) =
    match first_index v s with
    | Some i => Some i
    | None => (λ j, length s + j)%nat <$> first_index v t
    end.
Proof.
  induction s as [|c s IH]; simpl.
  { by destruct (first_index v t). }
  destruct (decide (c = v)); [done|]. rewrite IH.
  destruct (first_index v s); [done|]. by destruct (first_index v t).
Qed.

Lemma earlier_app s t a b : earlier s a b → earlier (s ++ t) a b.
Proof.
  intros (i & j & Hi & Hj & Hij). exists i, j.
  by rewrite !first_index_app, Hi, Hj.
Qed.

Lemma earlier_snoc (s : Series) (a v : cell) : a ∈ s → v ∉ s → earlier (s ++ [v]) a v.
Proof.
  intros Ha Hv. apply first_index_is_Some in Ha as [i Hi].
  apply first_index_None in Hv.
  exists i, (length s + 0)%nat. rewrite !first_index_app, Hi, Hv. simpl.
  rewrite decide_True by done. simpl.
  split_and!; [done..|]. apply first_index_lt in Hi. lia.
Qed.

Lemma occurrences_snoc k s v :
  occurrences k (s ++ [v]) = (occurrences k s + if decide (v = k) then 1 else 0)%nat.
Proof.
  unfold occurrences. rewrite filter_app, length_app. f_equal.
  rewrite filter_cons, filter_nil. by destruct (decide (v = k)).
Qed.

Lemma occurrences_notin (k : cell) (s : Series) : k ∉ s → occurrences k s = 0%nat.
Proof.
  unfold occurrences. induction s as [|c s IH]; [done|].
  rewrite not_elem_of_cons. intros [Hne Hk].
  rewrite filter_cons, decide_False by done. by apply IH.
Qed.

(** ** The hash-table count *)

Lemma count_incr_known (v : cell) (tbl : FrequencyTable) :
  v ∈ tbl.*1 → (count_incr v tbl).*1 = tbl.*1.
Proof.
  induction tbl as [|[k c] tbl IH]; simpl; [by intros ?%elem_of_nil|].
  intros Hv. destruct (decide (k = v)); [done|]. simpl. f_equal.
  apply IH. apply elem_of_cons in Hv as [?|?]; [congruence|done].
Qed.

Lemma count_incr_new (v : cell) (tbl : FrequencyTable) :
  v ∉ tbl.*1 → count_incr v tbl = tbl ++ [(v, 1)].
Proof.
  induction tbl as [|[k c] tbl IH]; simpl; [done|].
  rewrite not_elem_of_cons. intros [Hne Hv].
  rewrite decide_False by done. by rewrite IH.
Qed.

Lemma count_incr_elem (v : cell) (tbl : FrequencyTable) (k : cell) (c : nat) :
  NoDup tbl.*1 → (k, c) ∈ count_incr v tbl →
  (k ≠ v ∧ (k, c) ∈ tbl) ∨
  (k = v ∧ ∃ c', c = S c' ∧ (v, c') ∈ tbl) ∨
  (k = v ∧ c = 1 ∧ v ∉ tbl.*1).
Proof.
  induction tbl as [|[k0 c0] tbl IH]; simpl.
  { intros _ [= -> ->]%list_elem_of_singleton.
    right; right. split_and!; [done..|apply not_elem_of_nil]. }
  intros [Hk0 Hnd]%NoDup_cons. destruct (decide (k0 = v)) as [->|Hne].
  - intros [[= -> ->]|Hin]%elem_of_cons.
    + right; left. split; [done|]. exists c0. split; [done|left].
    + left. split; [|by right]. intros ->. apply Hk0.
      by apply (list_elem_of_fmap_2 fst) in Hin.
  - intros [[= -> ->]|Hin]%elem_of_cons.
    + left. split; [done|left].
    + destruct (IH Hnd Hin) as [ [? ?] | [ [ -> (c' & -> & ?) ] | ( -> & -> & ? ) ] ].
      * left. split; [done|by right].
      * right; left. split; [done|]. exists c'. split; [done|by right].
      * right; right. split_and!; [done..|]. rewrite not_elem_of_cons. done.
Qed.

Lemma tally_snoc s v : tally (s ++ [v]) = tally_step (tally s) v.
Proof. unfold tally. by rewrite foldl_snoc. Qed.

Lemma tally_inv_holds s : tally_inv s (tally s).
Proof.
  induction s as [|v s IH] using rev_ind.
  { split; simpl; [constructor|by intros ?? ?%elem_of_nil|by intros ?? ?%elem_of_nil|constructor]. }
  rewrite tally_snoc. destruct IH as [Hnd Hent Hall Hord].
  assert (StronglySorted (earlier (s ++ [v])) (tally s).*1) as Hord'.
  { eapply StronglySorted_mono; [|done]. intros ??. apply earlier_app. }
  assert (∀ k : cell, k ∈ (tally s).*1 → k ∈ s) as Hkeys.
  { intros k ([k' c] & ? & Hin)%list_elem_of_fmap. simplify_eq/=.
    by apply Hent in Hin as (? & ? & ?). }
  destruct v as [w|]; simpl.
  - destruct (decide (Some w ∈ (tally s).*1)) as [Hin|Hnin].
    + assert (Some w ∈ s) as Hws by by apply Hkeys.
      split.
      * by rewrite count_incr_known.
      * intros k c Hkc. apply count_incr_elem in Hkc; [|done].
        rewrite elem_of_app, occurrences_snoc.
        destruct Hkc as [ [Hne Hkc] | [ [ -> (c' & -> & Hkc) ] | ( -> & -> & ? ) ] ]; [| |done].
        -- apply Hent in Hkc as (? & ? & ->). rewrite decide_False by done.
           split_and!; [done|by left|lia].
        -- apply Hent in Hkc as (? & ? & ->). rewrite decide_True by done.
           split_and!; [done|by left|lia].
      * intros k Hk [Hks| ->%list_elem_of_singleton]%elem_of_app;
          rewrite count_incr_known by done; [by apply Hall|done].
      * by rewrite count_incr_known.
    + assert (Some w ∉ s) as Hws.
      { intros Hws. by apply Hnin, Hall. }
      rewrite count_incr_new by done. split.
      * rewrite fmap_app. simpl. apply NoDup_app. split_and!; [done| |apply NoDup_singleton].
        intros k Hk ->%list_elem_of_singleton. done.
      * intros k c [Hkc| [= -> ->]%list_elem_of_singleton]%elem_of_app;
          rewrite elem_of_app, occurrences_snoc.
        -- apply Hent in Hkc as (? & ? & ->).
           rewrite decide_False by (intros <-; done). split_and!; [done|by left|lia].
        -- rewrite decide_True by done. split_and!; [done|right; apply list_elem_of_singleton; done|].
           by rewrite occurrences_notin.
      * intros k Hk [Hks| ->%list_elem_of_singleton]%elem_of_app; rewrite fmap_app, elem_of_app.
        -- left. by apply Hall.
        -- right. simpl. apply list_elem_of_singleton. done.
      * rewrite fmap_app. simpl. apply StronglySorted_app_2; [|done|repeat constructor].
        intros k1 k2 Hk1 ->%list_elem_of_singleton. apply earlier_snoc; [|done].
        by apply Hkeys.
  - split; [done| |  |done].
    + intros k c Hkc. apply Hent in Hkc as (? & ? & ->).
      rewrite elem_of_app, occurrences_snoc, decide_False by (intros <-; done).
      split_and!; [done|by left|lia].
    + intros k Hk [Hks| ->%list_elem_of_singleton]%elem_of_app; [by apply Hall|done].
Qed.

Lemma dropna_snoc s v :
  dropna (s ++ [v]) = dropna s ++ (if v is Some _ then [v] else []).
Proof.
  unfold dropna. rewrite filter_app. f_equal. by destruct v.
Qed.

(** counting skips missing values, so dropping them first changes nothing *)
Lemma tally_dropna s : tally (dropna s) = tally s.
Proof.
  induction s as [|v s IH] using rev_ind; [done|].
  rewrite dropna_snoc, tally_snoc. destruct v as [w|]; simpl.
  - by rewrite tally_snoc, IH.
  - by rewrite app_nil_r.
Qed.

(** ** Columns *)

Lemma col_index_is_Some name cols : is_Some (col_index name cols) ↔ name ∈ cols.
Proof.
  induction cols as [|c cols IH]; simpl.
  { split; [by intros [? ?]|by intros ?%elem_of_nil]. }
  rewrite elem_of_cons. destruct (decide (c = name)) as [->|Hne].
  - split; [by left|by eexists].
  - rewrite fmap_is_Some, IH. split; [by right|by intros [?|?]].
Qed.

Lemma df_col_is_Some d name : is_Some (df_col d name) ↔ name ∈ columns d.
Proof. unfold df_col. by rewrite fmap_is_Some, col_index_is_Some. Qed.

Lemma df_col_None d name : df_col d name = None ↔ name ∉ columns d.
Proof. rewrite <-df_col_is_Some, eq_None_not_Some. done. Qed.

Lemma df_col_mask_is_Some d mask name :
  is_Some (df_col (df_mask d mask) name) ↔ name ∈ columns d.
Proof. by rewrite df_col_is_Some. Qed.

(** ** Running the monad *)

Lemma bind_unfold {A C} (m : M A) (k : A → M C) st :
  (m ≫= k) st =
    match m st with
    | (Ok a, st') => k a st'
    | (Raise e, st') => (Raise e, st')
    end.
Proof. reflexivity. Qed.

Lemma bind_ok {A C} (m : M A) (k : A → M C) st a st' :
  m st = (Ok a, st') → (m ≫= k) st = k a st'.
Proof. intros H. by rewrite bind_unfold, H. Qed.

Lemma bind_raise {A C} (m : M A) (k : A → M C) st e st' :
  m st = (Raise e, st') → (m ≫= k) st = (Raise e, st').
Proof. intros H. by rewrite bind_unfold, H. Qed.

Lemma bind_assoc {A C D} (m : M A) (k : A → M C) (h : C → M D) st :
  (m ≫= λ a, k a ≫= h) st = ((m ≫= k) ≫= h) st.
Proof. rewrite !bind_unfold. by destruct (m st) as [[a|e] st']. Qed.

Lemma bind_ok_inv {A C} (m : M A) (k : A → M C) st c st2 :
  (m ≫= k) st = (Ok c, st2) → ∃ a st1, m st = (Ok a, st1) ∧ k a st1 = (Ok c, st2).
Proof.
  rewrite bind_unfold. destruct (m st) as [[a|e] st1]; [eauto|done].
Qed.

Lemma load_data_eq path st :
  load_data path st =
    match fs st !! path with
    | None => (Raise (FileNotFoundError
                 (path +:+ " not found. Provide a sample CSV as described in README.")), st)
    | Some Dir => (Raise (IsADirectoryError path), st)
    | Some (CsvFile (Some d)) =>
        if bool_decide ("timestamp" ∈ columns d)
        then (Ok (length (heap st)),
              mkState (fs st) (stdout st) (written st) (heap st ++ [d]))
        else (Raise (ValueError "Missing column provided to 'parse_dates': 'timestamp'"), st)
    | Some _ => (Raise (ParserError path), st)
    end.
Proof.
  unfold load_data. rewrite bind_unfold. unfold os_path_exists.
  destruct (fs st !! path) as [n|] eqn:Hp.
  - rewrite bool_decide_true by eauto. simpl. rewrite bind_unfold.
    unfold read_csv. rewrite Hp. destruct n as [|[d|]| |]; try done.
    cbn zeta. unfold missing_dates. rewrite filter_cons, filter_nil.
    destruct (decide ("timestamp" ∉ columns d)) as [Hts|Hts].
    + by rewrite (bool_decide_false ("timestamp" ∈ columns d)) by done.
    + by rewrite (bool_decide_true ("timestamp" ∈ columns d)) by (by apply dec_stable).
  - by rewrite bool_decide_false by (by intros [? ?]).
Qed.

Lemma search_filter_eq r d st :
  heap st !! r = Some d →
  search_filter r st =
    match df_col d "action" with
    | Some a =>
        if bool_decide ("action" ∈ text_columns d) then
          (Ok (length (heap st)),
           mkState (fs st) (stdout st) (written st)
                   (heap st ++ [search_rows d a]))
        else
          (Raise (AttributeError "Can only use .str accessor with string values!"),
           st)
    | None => (Raise (KeyError "action"), st)
    end.
Proof.
  intros Hr. unfold search_filter, getitem, getitem_mask, str_accessor, deref.
  rewrite !bind_unfold, Hr. destruct (df_col d "action"); [|done].
  simpl. rewrite !bind_unfold, Hr. case_bool_decide; [|done].
  simpl. by rewrite bind_unfold, Hr.
Qed.

Lemma download_filter_eq r d st :
  heap st !! r = Some d →
  download_filter r st =
    match df_col d "action" with
    | Some a =>
        if bool_decide ("action" ∈ text_columns d) then
          (Ok (length (heap st)),
           mkState (fs st) (stdout st) (written st)
                   (heap st ++ [download_rows d a]))
        else
          (Raise (AttributeError "Can only use .str accessor with string values!"),
           st)
    | None => (Raise (KeyError "action"), st)
    end.
Proof.
  intros Hr. unfold download_filter, getitem, getitem_mask, str_accessor, deref.
  rewrite !bind_unfold, Hr. destruct (df_col d "action"); [|done].
  simpl. rewrite !bind_unfold, Hr. case_bool_decide; [|done].
  simpl. by rewrite bind_unfold, Hr.
Qed.

(** a write below a directory that is there *)
Lemma write_node_ready path n st :
  fs st !! dirname path = Some Dir →
  write_node path n st =
    match fs st !! path with
    | Some Dir => (Raise (IsADirectoryError path), st)
    | _ => (Ok (), mkState (<[path := n]> (fs st)) (stdout st)
                     (written st ++ [path]) (heap st))
    end.
Proof.
  intros Hd. unfold write_node. cbn zeta.
  by rewrite (bool_decide_true (_ !! _ = _)), orb_true_r by done.
Qed.

(** an image whose name has a format of [savefig] lands at that name *)
Lemma savefig_ready path fig st :
  image_target path = Some path →
  fs st !! dirname path = Some Dir →
  savefig path fig st =
    match fs st !! path with
    | Some Dir => (Raise (IsADirectoryError path), st)
    | _ => (Ok (), mkState (<[path := PngFile fig]> (fs st)) (stdout st)
                     (written st ++ [path]) (heap st))
    end.
Proof. intros Hi Hd. unfold savefig. rewrite Hi. by apply write_node_ready. Qed.

Lemma made_outdir (f : gmap string Node) :
  f !! OUT_DIR = None ∨ f !! OUT_DIR = Some Dir → made f !! OUT_DIR = Some Dir.
Proof.
  intros Hout. unfold made.
  destruct Hout as [Heq|Heq]; rewrite Heq; [by rewrite lookup_insert_eq|done].
Qed.

(** one chart topic of [main] (lines 47-51, 55-59, 62-66) *)
Lemma chart_block_eq B (dfr segr : nat) d seg col msg title fname xlabel st :
  heap st !! dfr = Some d → heap st !! segr = Some seg →
  columns seg = columns d →
  xlabel ≠ "" →
  image_target (os_path_join OUT_DIR fname) = Some (os_path_join OUT_DIR fname) →
  dirname (os_path_join OUT_DIR fname) = OUT_DIR →
  fs st !! OUT_DIR = Some Dir →
  (has_column dfr col ≫= λ b : bool,
     if b then
       print msg;;
       series ← getitem segr col;
       p ← plot_and_save B (dropna series) title fname xlabel "Count" 10;
       mret (Some p)
     else mret None) st =
  match chart seg col title xlabel with
  | None => (Ok None, st)
  | Some fig =>
      let st1 := mkState (fs st) (stdout st ++ [msg]) (written st) (heap st) in
      match B (bars fig) with
      | Some e => (Raise e, st1)
      | None =>
          let path := os_path_join OUT_DIR fname in
          match fs st !! path with
          | Some Dir => (Raise (IsADirectoryError path), st1)
          | _ => (Ok (Some path),
                  mkState (<[path := PngFile fig]> (fs st)) (stdout st ++ [msg])
                          (written st ++ [path]) (heap st))
          end
      end
  end.
Proof.
  intros Hd Hseg Hcols Hx Himg Hpar Hout. unfold has_column, deref, chart.
  rewrite !bind_unfold, Hd. simpl.
  destruct (df_col seg col) as [s|] eqn:Hs; simpl.
  - rewrite bool_decide_true.
    2:{ rewrite <-Hcols. apply df_col_is_Some. by rewrite Hs. }
    rewrite bind_unfold. unfold print at 1. rewrite bind_unfold.
    unfold getitem, deref. rewrite bind_unfold. simpl. rewrite Hseg, Hs. simpl.
    rewrite bind_unfold. unfold plot_and_save. rewrite !bind_unfold.
    unfold bar_plot. rewrite bool_decide_false by done.
    destruct (B (top (dropna s) 10)) as [e|]; [done|]. simpl.
    rewrite bind_unfold, savefig_ready by (by rewrite ?Hpar). simpl.
    by destruct (fs st !! os_path_join OUT_DIR fname) as [[]|].
  - rewrite bool_decide_false; [done|].
    rewrite <-Hcols. by apply df_col_None.
Qed.

Lemma chart_block_ok B (dfr segr : nat) d seg col msg title fname xlabel st :
  heap st !! dfr = Some d → heap st !! segr = Some seg →
  columns seg = columns d →
  xlabel ≠ "" →
  image_target (os_path_join OUT_DIR fname) = Some (os_path_join OUT_DIR fname) →
  dirname (os_path_join OUT_DIR fname) = OUT_DIR →
  fs st !! OUT_DIR = Some Dir →
  let c := chart seg col title xlabel in
  let path := os_path_join OUT_DIR fname in
  drawable B (fs st) path c →
  (has_column dfr col ≫= λ b : bool,
     if b then
       print msg;;
       series ← getitem segr col;
       p ← plot_and_save B (dropna series) title fname xlabel "Count" 10;
       mret (Some p)
     else mret None) st =
  (Ok ((λ _, path) <$> c),
   mkState (save path c (fs st)) (stdout st ++ when c msg)
           (written st ++ when c path) (heap st)).
Proof.
  intros Hd Hseg Hcols Hx Himg Hpar Hout c path Hdraw.
  rewrite (chart_block_eq _ _ _ d seg) by done. fold c. fold path.
  destruct c as [fig|]; simpl in *.
  - destruct Hdraw as [-> Hp]. by destruct (fs st !! path) as [[]|].
  - rewrite !app_nil_r. by destruct st.
Qed.

Lemma chart_block_inv B (dfr segr : nat) d seg col msg title fname xlabel st p st' :
  heap st !! dfr = Some d → heap st !! segr = Some seg →
  columns seg = columns d →
  xlabel ≠ "" →
  image_target (os_path_join OUT_DIR fname) = Some (os_path_join OUT_DIR fname) →
  dirname (os_path_join OUT_DIR fname) = OUT_DIR →
  fs st !! OUT_DIR = Some Dir →
  let c := chart seg col title xlabel in
  let path := os_path_join OUT_DIR fname in
  (has_column dfr col ≫= λ b : bool,
     if b then
       print msg;;
       series ← getitem segr col;
       p ← plot_and_save B (dropna series) title fname xlabel "Count" 10;
       mret (Some p)
     else mret None) st = (Ok p, st') →
  drawable B (fs st) path c ∧
  p = (λ _, path) <$> c ∧
  st' = mkState (save path c (fs st)) (stdout st ++ when c msg)
                (written st ++ when c path) (heap st).
Proof.
  intros Hd Hseg Hcols Hx Himg Hpar Hout c path.
  rewrite (chart_block_eq _ _ _ d seg) by done. fold c. fold path.
  destruct c as [fig|]; simpl.
  - destruct (B (bars fig)) as [e|]; [done|].
    destruct (fs st !! path) as [[]|] eqn:Hp; intros [= <- <-]; done.
  - intros [= <- <-]. rewrite !app_nil_r. by destruct st.
Qed.

Lemma lookup_save_ne path c (g : gmap string Node) q :
  path ≠ q → save path c g !! q = g !! q.
Proof. intros. destruct c; simpl; [by rewrite lookup_insert_ne|done]. Qed.

Lemma lookup_made_ne (f : gmap string Node) q : q ≠ OUT_DIR → made f !! q = f !! q.
Proof.
  intros. unfold made. destruct (f !! OUT_DIR); [done|]. by rewrite lookup_insert_ne.
Qed.

Lemma drawable_fs B (f g : gmap string Node) path c :
  g !! path = f !! path → drawable B f path c ↔ drawable B g path c.
Proof. intros Hp. destruct c; simpl; [by rewrite Hp|done]. Qed.

Lemma makedirs_eq st :
  os_makedirs OUT_DIR st =
    match fs st !! OUT_DIR with
    | None | Some Dir => (Ok (), mkState (made (fs st)) (stdout st) (written st) (heap st))
    | Some _ => (Raise (FileExistsError OUT_DIR), st)
    end.
Proof.
  unfold os_makedirs, made. destruct (fs st !! OUT_DIR) as [[]|]; try done. by destruct st.
Qed.

(** the tail of [main]: the stats table and the report *)
Lemma report_block_eq (dfr sr : nat) d seg p1 p2 p3 st :
  heap st !! dfr = Some d → heap st !! sr = Some seg →
  fs st !! OUT_DIR = Some Dir →
  (total_events ← len dfr;
   has_user_id ← has_column dfr "user_id";
   unique_users ← (if has_user_id : bool then
                     user_id ← getitem dfr "user_id";
                     mret (IntStat (nunique user_id))
                   else mret (StrStat "N/A"));
   total_searches ← len sr;
   let stats := [("total_events", IntStat total_events);
                 ("unique_users", unique_users);
                 ("total_searches", IntStat total_searches)] in
   let html := report_lines stats p1 p2 p3 in
   let report_path := os_path_join OUT_DIR "report.html" in
   write_node report_path (TextFile (join newline html));;
   print ("Report and charts saved to " +:+ OUT_DIR +:+ "/");;
   print "Open analytics_reports/report.html in your browser to view.") st =
  let stats := [("total_events", IntStat (length (rows d)));
                ("unique_users", match df_col d "user_id" with
                                 | Some u => IntStat (nunique u)
                                 | None => StrStat "N/A"
                                 end);
                ("total_searches", IntStat (length (rows seg)))] in
  match fs st !! report_html with
  | Some Dir => (Raise (IsADirectoryError report_html), st)
  | _ => (Ok (),
          mkState (<[report_html := TextFile (join newline (report_lines stats p1 p2 p3))]> (fs st))
                  (stdout st ++ ["Report and charts saved to analytics_reports/";
                                 "Open analytics_reports/report.html in your browser to view."])
                  (written st ++ [report_html]) (heap st))
  end.
Proof.
  intros Hd Hs Hout. unfold len, has_column, deref.
  rewrite !bind_unfold, Hd. cbn [fs stdout written heap mret M_ret].
  rewrite !bind_unfold, Hd. cbn [fs stdout written heap mret M_ret].
  assert (∀ k : StatValue → M (),
    ((if bool_decide ("user_id" ∈ columns d)
      then user_id ← getitem dfr "user_id"; mret (IntStat (nunique user_id))
      else mret (StrStat "N/A")) ≫= k) st =
    k (match df_col d "user_id" with Some u => IntStat (nunique u) | None => StrStat "N/A" end) st) as Hu.
  { intros k. rewrite bind_unfold. destruct (df_col d "user_id") as [u|] eqn:Hu.
    - rewrite bool_decide_true by (apply df_col_is_Some; by rewrite Hu).
      unfold getitem, deref. rewrite !bind_unfold, Hd, Hu. done.
    - rewrite bool_decide_false by (by apply df_col_None). done. }
  rewrite Hu. rewrite !bind_unfold, Hs. cbn [fs stdout written heap mret M_ret].
  change (os_path_join OUT_DIR "report.html") with report_html.
  rewrite bind_unfold, write_node_ready by done.
  destruct (fs st !! report_html) as [[]|]; try done.
  all: rewrite !bind_unfold; unfold print; cbn [fs stdout written heap];
    rewrite <-?app_assoc; done.
Qed.

Lemma path_terms : os_path_join OUT_DIR "top_searched_terms.png" = terms_png.
Proof. reflexivity. Qed.
Lemma path_forms : os_path_join OUT_DIR "top_downloaded_forms.png" = forms_png.
Proof. reflexivity. Qed.
Lemma path_categories : os_path_join OUT_DIR "top_categories.png" = categories_png.
Proof. reflexivity. Qed.

Ltac st_simpl := cbn [fs stdout written heap mret M_ret app length].
Ltac st_simpl_in H := cbn [fs stdout written heap mret M_ret app length] in H.

(** A run whose conditions are met completes, in the state described. *)
Lemma run_completes B (f : gmap string Node) df action :
  completes B f df action → run B f = (Ok (), final_state f df action).
Proof.
  intros (Hout & Hin & Hts & Hact & H1 & H2 & H3 & Hrep & Htxt).
  pose proof (made_outdir f Hout) as Hdir.
  unfold run, script. rewrite bind_unfold, makedirs_eq. st_simpl.
  assert (match f !! OUT_DIR with
          | Some Dir | None => (Ok (), mkState (made f) [] [] [])
          | Some _ => (Raise (FileExistsError OUT_DIR), mkState f [] [] [])
          end = (Ok (), mkState (made f) [] [] [])) as ->.
  { by destruct Hout as [-> | ->]. }
  unfold main. rewrite bind_unfold. unfold print at 1. st_simpl.
  rewrite bind_unfold, load_data_eq. st_simpl.
  rewrite lookup_made_ne, Hin, bool_decide_true by done.
  rewrite bind_unfold, (search_filter_eq _ df) by done.
  rewrite Hact, bool_decide_true by done. st_simpl.
  rewrite bind_assoc, bind_unfold.
  rewrite (chart_block_ok _ _ _ df (search_rows df action)); [|done..|].
  2:{ st_simpl. rewrite path_terms. apply (drawable_fs _ f); [|done].
      by apply lookup_made_ne. }
  st_simpl. fold (terms_chart df action). rewrite path_terms.
  rewrite bind_unfold, (download_filter_eq _ df) by done.
  rewrite Hact, bool_decide_true by done. st_simpl.
  rewrite bind_assoc, bind_unfold.
  rewrite (chart_block_ok _ _ _ df (download_rows df action)); [|try done..|].
  2:{ st_simpl. by rewrite lookup_save_ne. }
  2:{ st_simpl. rewrite path_forms. apply (drawable_fs _ f); [|done].
      rewrite lookup_save_ne by done. by apply lookup_made_ne. }
  st_simpl. fold (forms_chart df action). rewrite path_forms.
  rewrite bind_assoc, bind_unfold.
  rewrite (chart_block_ok _ _ _ df df); [|try done..|].
  2:{ st_simpl. by rewrite !lookup_save_ne. }
  2:{ st_simpl. rewrite path_categories. apply (drawable_fs _ f); [|done].
      rewrite !lookup_save_ne by done. by apply lookup_made_ne. }
  st_simpl. fold (categories_chart df). rewrite path_categories.
  rewrite (report_block_eq _ _ df (search_rows df action));
    [|try done..]; [|st_simpl; by rewrite !lookup_save_ne].
  st_simpl.
  rewrite !lookup_save_ne, lookup_made_ne by done.
  unfold final_state, report_of, stats_of. rewrite <-!app_assoc.
  by destruct (f !! report_html) as [[]|].
Qed.

(** A run that completes met the conditions, and ends in that state. *)
Lemma run_ok_inv B (f : gmap string Node) st :
  run B f = (Ok (), st) →
  ∃ df action, completes B f df action ∧ st = final_state f df action.
Proof.
  unfold run, script. rewrite bind_unfold, makedirs_eq. st_simpl. intros H.
  assert (f !! OUT_DIR = None ∨ f !! OUT_DIR = Some Dir) as Hout.
  { destruct (f !! OUT_DIR) as [[]|]; try done; eauto. }
  pose proof (made_outdir f Hout) as Hdir.
  assert (main B (mkState (made f) [] [] []) = (Ok (), st)) as Hmain.
  { by destruct Hout as [Heq|Heq]; rewrite Heq in H. }
  clear H. revert Hmain.
  unfold main. rewrite bind_unfold. unfold print at 1. st_simpl.
  rewrite bind_unfold, load_data_eq. st_simpl. rewrite lookup_made_ne by done.
  destruct (f !! INPUT_CSV) as [[|[df|]| |]|] eqn:Hin; try done.
  case_bool_decide as Hts; [|done].
  rewrite bind_unfold, (search_filter_eq _ df) by done.
  destruct (df_col df "action") as [action|] eqn:Hact; [|done].
  case_bool_decide as Htxt; [|done]. st_simpl.
  rewrite bind_assoc. intros (p1 & st1 & Hb1 & H)%bind_ok_inv. revert H.
  apply (chart_block_inv _ _ _ df (search_rows df action)) in Hb1
    as (H1 & -> & ->); [|done..].
  st_simpl. st_simpl_in H1. fold (terms_chart df action) in *. rewrite path_terms in *.
  rewrite bind_unfold, (download_filter_eq _ df) by done.
  rewrite Hact, bool_decide_true by done. st_simpl.
  rewrite bind_assoc. intros (p2 & st2 & Hb2 & H)%bind_ok_inv. revert H.
  apply (chart_block_inv _ _ _ df (download_rows df action)) in Hb2
    as (H2 & -> & ->); [|try done..]; [|st_simpl; by rewrite lookup_save_ne].
  st_simpl. st_simpl_in H2. fold (forms_chart df action) in *. rewrite path_forms in *.
  rewrite bind_assoc. intros (p3 & st3 & Hb3 & H)%bind_ok_inv. revert H.
  apply (chart_block_inv _ _ _ df df) in Hb3 as (H3 & -> & ->);
    [|try done..]; [|st_simpl; by rewrite !lookup_save_ne].
  st_simpl. st_simpl_in H3. fold (categories_chart df) in *. rewrite path_categories in *.
  rewrite (report_block_eq _ _ df (search_rows df action));
    [|try done..]; [|st_simpl; by rewrite !lookup_save_ne].
  st_simpl.
  rewrite !lookup_save_ne, lookup_made_ne by done. intros H.
  exists df, action. split.
  - split_and!; try done.
    + apply (drawable_fs _ f) in H1; [done|]. by apply lookup_made_ne.
    + apply (drawable_fs _ f) in H2; [done|].
      rewrite lookup_save_ne by done. by apply lookup_made_ne.
    + apply (drawable_fs _ f) in H3; [done|].
      rewrite !lookup_save_ne by done. by apply lookup_made_ne.
    + intros Heq. by rewrite Heq in H.
  - unfold final_state, report_of, stats_of. rewrite <-!app_assoc in H.
    destruct (f !! report_html) as [[]|]; by simplify_eq.
Qed.

(** ** The ranked frequency table *)

Lemma StronglySorted_fmap_inv {A C} (g : A → C) (R : relation C) l :
  StronglySorted R (g <$> l) → StronglySorted (λ a b, R (g a) (g b)) l.
Proof.
  induction l as [|x l IH]; csimpl; [constructor|].
  intros [Hx Hl]%StronglySorted_cons. constructor; [by apply IH|].
  by rewrite Forall_fmap in Hx.
Qed.

Lemma top_ranked (s : Series) n :
  StronglySorted (ranked (earlier s)) (top (dropna s) n).
Proof.
  rewrite top_unfold, tally_dropna. apply StronglySorted_take, sort_desc_ranked.
  apply StronglySorted_fmap_inv, tally_inv_holds.
Qed.

Lemma top_entry (s : Series) n k c :
  (k, c) ∈ top (dropna s) n → k ≠ None ∧ k ∈ s ∧ c = occurrences k s.
Proof.
  rewrite top_unfold, tally_dropna. intros Hin.
  apply (inv_entry _ _ (tally_inv_holds s)).
  rewrite <-(sort_desc_perm (tally s)).
  apply list_elem_of_lookup in Hin as [i Hi].
  apply lookup_take_Some in Hi as [Hi _]. by eapply list_elem_of_lookup_2.
Qed.

(** C2: the table behind every chart, [value_counts().nlargest(top_n)] of a
    column with its missing values dropped, has at most [top_n] entries
    (10 in every call of [main]), is in descending order of count, has no
    missing value among its keys, and lists equal counts in the order in
    which their values first appear in the column. *)
Theorem frequency_table_ranked (s : Series) (n : nat) :
  let T := top (dropna s) n in
  (length T ≤ n)%nat ∧
  StronglySorted desc T ∧
  (∀ k c, (k, c) ∈ T → k ≠ None) ∧
  (∀ i j k1 k2 c, (i < j)%nat →
     T !! i = Some (k1, c) → T !! j = Some (k2, c) → earlier s k1 k2).
Proof.
  intros T. split_and!.
  - unfold T. rewrite top_unfold, length_take. lia.
  - eapply StronglySorted_mono; [|apply top_ranked]. apply ranked_desc.
  - intros k c Hin. by apply top_entry in Hin as (? & _).
  - intros i j k1 k2 c Hij Hi Hj.
    destruct (StronglySorted_lookup _ _ _ _ _ _ (top_ranked s n) Hi Hj Hij)
      as [Hlt|[_ He]]; simpl in *; [lia|done].
Qed.

(** ** The files of a completed run *)

Lemma lookup_save_eq path c (g : gmap string Node) :
  save path c g !! path = from_option (λ fig, Some (PngFile fig)) (g !! path) c.
Proof. destruct c; simpl; [by rewrite lookup_insert_eq|done]. Qed.

Lemma final_terms f df action :
  fs (final_state f df action) !! terms_png =
    from_option (λ fig, Some (PngFile fig)) (f !! terms_png) (terms_chart df action).
Proof.
  unfold final_state. cbn [fs].
  rewrite lookup_insert_ne, !lookup_save_ne, lookup_save_eq by done.
  by rewrite lookup_made_ne.
Qed.

Lemma final_forms f df action :
  fs (final_state f df action) !! forms_png =
    from_option (λ fig, Some (PngFile fig)) (f !! forms_png) (forms_chart df action).
Proof.
  unfold final_state. cbn [fs].
  rewrite lookup_insert_ne, !lookup_save_ne, lookup_save_eq by done.
  by rewrite lookup_save_ne, lookup_made_ne.
Qed.

Lemma final_categories f df action :
  fs (final_state f df action) !! categories_png =
    from_option (λ fig, Some (PngFile fig)) (f !! categories_png) (categories_chart df).
Proof.
  unfold final_state. cbn [fs].
  rewrite lookup_insert_ne, lookup_save_eq by done.
  by rewrite !lookup_save_ne, lookup_made_ne.
Qed.

Lemma final_report f df action :
  fs (final_state f df action) !! report_html =
    Some (TextFile (join newline (report_of df action))).
Proof. unfold final_state. cbn [fs]. by rewrite lookup_insert_eq. Qed.

Lemma final_input f df action :
  fs (final_state f df action) !! INPUT_CSV = f !! INPUT_CSV.
Proof.
  unfold final_state. cbn [fs].
  by rewrite lookup_insert_ne, !lookup_save_ne, lookup_made_ne.
Qed.

Lemma final_outdir f df action :
  f !! OUT_DIR = None ∨ f !! OUT_DIR = Some Dir →
  fs (final_state f df action) !! OUT_DIR = Some Dir.
Proof.
  intros Hout. unfold final_state. cbn [fs].
  rewrite lookup_insert_ne, !lookup_save_ne by done. unfold made.
  destruct Hout as [Heq|Heq]; rewrite Heq; [by rewrite lookup_insert_eq|done].
Qed.

(** everything but the outputs is as it was *)
Lemma final_frame f df action p :
  p ≠ OUT_DIR → p ∉ written (final_state f df action) →
  fs (final_state f df action) !! p = f !! p.
Proof.
  intros Hp. unfold final_state. cbn [fs written].
  rewrite !elem_of_app, list_elem_of_singleton. intros Hw.
  assert (p ≠ report_html) by (intros ->; tauto).
  rewrite lookup_insert_ne by done.
  assert (∀ q c g, p ∉ when c q → save q c g !! p = g !! p) as Hs.
  { intros q [fig|] g; simpl; [|done].
    rewrite list_elem_of_singleton. intros ?. by rewrite lookup_insert_ne. }
  rewrite !Hs by tauto. by apply lookup_made_ne.
Qed.

(** ** The lines of the report *)





(** ** Fatal conditions *)

Lemma run_made B (f : gmap string Node) :
  f !! OUT_DIR = None ∨ f !! OUT_DIR = Some Dir →
  run B f = main B (mkState (made f) [] [] []).
Proof.
  intros Hout. unfold run, script. rewrite bind_unfold, makedirs_eq. st_simpl.
  by destruct Hout as [-> | ->].
Qed.

Lemma run_not_made B (f : gmap string Node) n :
  f !! OUT_DIR = Some n → n ≠ Dir →
  run B f = (Raise (FileExistsError OUT_DIR), mkState f [] [] []).
Proof.
  intros Hout Hn. unfold run, script. rewrite bind_unfold, makedirs_eq. st_simpl.
  rewrite Hout. by destruct n.
Qed.

Lemma main_load_raise B (g : gmap string Node) e st :
  load_data INPUT_CSV (mkState g ["Loading data..."] [] []) = (Raise e, st) →
  main B (mkState g [] [] []) = (Raise e, st).
Proof.
  intros Hl. unfold main. rewrite bind_unfold. unfold print at 1. st_simpl.
  by rewrite bind_unfold, Hl.
Qed.

Lemma main_no_action B (g : gmap string Node) df :
  g !! INPUT_CSV = Some (CsvFile (Some df)) →
  "timestamp" ∈ columns df → "action" ∉ columns df →
  load_data INPUT_CSV (mkState g ["Loading data..."] [] []) =
    (Ok 0, mkState g ["Loading data..."] [] [df]) ∧
  main B (mkState g [] [] []) =
    (Raise (KeyError "action"), mkState g ["Loading data..."] [] [df]).
Proof.
  intros Hin Hts Hact.
  assert (load_data INPUT_CSV (mkState g ["Loading data..."] [] []) =
            (Ok 0, mkState g ["Loading data..."] [] [df])) as Hl.
  { rewrite load_data_eq. st_simpl. by rewrite Hin, bool_decide_true. }
  split; [done|].
  unfold main. rewrite bind_unfold. unfold print at 1. st_simpl.
  rewrite bind_unfold, Hl, bind_unfold, (search_filter_eq _ df) by done.
  by rewrite (proj2 (df_col_None _ _) Hact).
Qed.

(** C4: a path that is not on disk makes [load_data] raise
    FileNotFoundError with a message that starts with the path and asks for
    a sample CSV; with the input file of the script missing the run ends in
    an exception, writes no file and never prints the closing line about
    saved reports. *)
Theorem missing_input_fatal (B : Backend) (f : gmap string Node)
    (path : string) (st : State) :
  fs st !! path = None → f !! INPUT_CSV = None →
  load_data path st =
    (Raise (FileNotFoundError
       (path +:+ " not found. Provide a sample CSV as described in README.")), st) ∧
  (∃ e st', run B f = (Raise e, st') ∧
    written st' = [] ∧
    ("Report and charts saved to analytics_reports/" ∉ stdout st') ∧
    (f !! OUT_DIR = None ∨ f !! OUT_DIR = Some Dir →
       e = FileNotFoundError missing_msg)).
Proof.
  intros Hp Hin. split.
  { by rewrite load_data_eq, Hp. }
  destruct (f !! OUT_DIR) as [n|] eqn:Hout.
  - destruct (decide (n = Dir)) as [->|Hn].
    + eexists _, _. split; [|split_and!].
      * rewrite run_made by eauto. apply main_load_raise.
        rewrite load_data_eq. st_simpl. by rewrite lookup_made_ne, Hin.
      * done.
      * st_simpl. by intros ?%list_elem_of_singleton.
      * done.
    + eexists _, _. split; [by eapply run_not_made|]. split_and!; [done| |].
      * st_simpl. apply not_elem_of_nil.
      * intros [?|?]; congruence.
  - eexists _, _. split; [|split_and!].
    + rewrite run_made by eauto. apply main_load_raise.
      rewrite load_data_eq. st_simpl. by rewrite lookup_made_ne, Hin.
    + done.
    + st_simpl. by intros ?%list_elem_of_singleton.
    + done.
Qed.

Lemma missing_input_fatal_witness :
  load_data "nowhere.csv" (mkState ∅ [] [] []) =
    (Raise (FileNotFoundError
       "nowhere.csv not found. Provide a sample CSV as described in README."),
     mkState ∅ [] [] []) ∧
  (∃ e st', run draws_all ∅ = (Raise e, st') ∧
    written st' = [] ∧
    ("Report and charts saved to analytics_reports/" ∉ stdout st') ∧
    ((∅ : gmap string Node) !! OUT_DIR = None ∨
     (∅ : gmap string Node) !! OUT_DIR = Some Dir →
       e = FileNotFoundError missing_msg)).
Proof.
  apply (missing_input_fatal draws_all ∅ "nowhere.csv" (mkState ∅ [] [] []));
    reflexivity.
Defined.

(** C10: the output directory is made by the first statement of the
    script, so [main], and with it the check of the input file, starts
    with the directory in place; making it is idempotent; a run that stops
    on the missing input file leaves the directory on disk and touches no
    other path. *)
Theorem outdir_made_before_load (B : Backend) (f : gmap string Node) :
  f !! INPUT_CSV = None →
  f !! OUT_DIR = None ∨ f !! OUT_DIR = Some Dir →
  ∃ st1 st',
    os_makedirs OUT_DIR (mkState f [] [] []) = (Ok (), st1) ∧
    fs st1 !! OUT_DIR = Some Dir ∧
    os_makedirs OUT_DIR st1 = (Ok (), st1) ∧
    run B f = main B st1 ∧
    run B f = (Raise (FileNotFoundError missing_msg), st') ∧
    fs st' !! OUT_DIR = Some Dir ∧
    (∀ p, p ≠ OUT_DIR → fs st' !! p = f !! p).
Proof.
  intros Hin Hout.
  assert (made f !! OUT_DIR = Some Dir) as Hdir.
  { unfold made. destruct Hout as [Heq|Heq]; rewrite Heq; [|done].
    by rewrite lookup_insert_eq. }
  exists (mkState (made f) [] [] []), (mkState (made f) ["Loading data..."] [] []).
  split_and!.
  - rewrite makedirs_eq. st_simpl. by destruct Hout as [-> | ->].
  - done.
  - rewrite makedirs_eq. st_simpl. rewrite Hdir.
    replace (made (made f)) with (made f); [done|].
    generalize (made f) Hdir. intros g Hg. unfold made. by rewrite Hg.
  - by apply run_made.
  - rewrite run_made by done. apply main_load_raise.
    rewrite load_data_eq. st_simpl. by rewrite lookup_made_ne, Hin.
  - done.
  - intros p Hp. st_simpl. by apply lookup_made_ne.
Qed.

Lemma outdir_made_before_load_witness :
  ∃ st1 st',
    os_makedirs OUT_DIR (mkState ∅ [] [] []) = (Ok (), st1) ∧
    fs st1 !! OUT_DIR = Some Dir ∧
    os_makedirs OUT_DIR st1 = (Ok (), st1) ∧
    run raises_on_empty ∅ = main raises_on_empty st1 ∧
    run raises_on_empty ∅ = (Raise (FileNotFoundError missing_msg), st') ∧
    fs st' !! OUT_DIR = Some Dir ∧
    (∀ p, p ≠ OUT_DIR → fs st' !! p = (∅ : gmap string Node) !! p).
Proof.
  apply (outdir_made_before_load raises_on_empty ∅); [reflexivity|].
  left. reflexivity.
Defined.

(** C3 (as the script has it): loading does not look at the [action]
    column.  A table without it loads, and the run stops at the search
    filter of [main]. *)
Lemma absent_action_loads :
  load_data INPUT_CSV (mkState (made no_action_fs) ["Loading data..."] [] []) =
    (Ok 0, mkState (made no_action_fs) ["Loading data..."] [] [no_action_df]) ∧
  run draws_all no_action_fs =
    (Raise (KeyError "action"),
     mkState (made no_action_fs) ["Loading data..."] [] [no_action_df]).
Proof. split; by vm_compute. Qed.

(** C3, amended: an input that does not parse makes [load_data] raise
    a parser error; a table without an [action] column loads when it has a
    [timestamp] column, and the run then stops with the KeyError of the
    search filter (without [timestamp], loading stops on the ValueError of
    the date parser).  In each case the run ends in an exception before
    any chart or report is written. *)
Theorem schema_failures (B : Backend) (f : gmap string Node) :
  f !! OUT_DIR = None ∨ f !! OUT_DIR = Some Dir →
  (f !! INPUT_CSV = Some (CsvFile None) ∨
   ∃ df, f !! INPUT_CSV = Some (CsvFile (Some df)) ∧ "action" ∉ columns df) →
  ∃ e st, run B f = (Raise e, st) ∧
    written st = [] ∧ fs st = made f ∧ stdout st = ["Loading data..."] ∧
    match f !! INPUT_CSV with
    | Some (CsvFile None) =>
        e = ParserError INPUT_CSV ∧
        load_data INPUT_CSV (mkState (made f) ["Loading data..."] [] []) =
          (Raise e, st)
    | Some (CsvFile (Some df)) =>
        if bool_decide ("timestamp" ∈ columns df) then
          e = KeyError "action" ∧
          load_data INPUT_CSV (mkState (made f) ["Loading data..."] [] []) =
            (Ok 0, st)
        else
          e = ValueError "Missing column provided to 'parse_dates': 'timestamp'" ∧
          load_data INPUT_CSV (mkState (made f) ["Loading data..."] [] []) =
            (Raise e, st)
    | _ => False
    end.
Proof.
  intros Hout [Hin|(df & Hin & Hact)]; rewrite Hin, run_made by done.
  - assert (load_data INPUT_CSV (mkState (made f) ["Loading data..."] [] []) =
              (Raise (ParserError INPUT_CSV), mkState (made f) ["Loading data..."] [] []))
      as Hl.
    { rewrite load_data_eq. st_simpl. by rewrite lookup_made_ne, Hin. }
    eexists _, _. split; [by apply main_load_raise|]. by split_and!.
  - case_bool_decide as Hts.
    + destruct (main_no_action B (made f) df) as [Hl Hm]; [|done..|].
      { by rewrite lookup_made_ne. }
      eexists _, _. split; [done|]. by split_and!.
    + assert (load_data INPUT_CSV (mkState (made f) ["Loading data..."] [] []) =
                (Raise (ValueError "Missing column provided to 'parse_dates': 'timestamp'"),
                 mkState (made f) ["Loading data..."] [] [])) as Hl.
      { rewrite load_data_eq. st_simpl.
        by rewrite lookup_made_ne, Hin, bool_decide_false. }
      eexists _, _. split; [by apply main_load_raise|]. by split_and!.
Qed.

Lemma schema_failures_witness :
  ∃ e st, run draws_all garbage_fs = (Raise e, st) ∧
    written st = [] ∧ fs st = made garbage_fs ∧ stdout st = ["Loading data..."] ∧
    match garbage_fs !! INPUT_CSV with
    | Some (CsvFile None) =>
        e = ParserError INPUT_CSV ∧
        load_data INPUT_CSV (mkState (made garbage_fs) ["Loading data..."] [] []) =
          (Raise e, st)
    | Some (CsvFile (Some df)) =>
        if bool_decide ("timestamp" ∈ columns df) then
          e = KeyError "action" ∧
          load_data INPUT_CSV (mkState (made garbage_fs) ["Loading data..."] [] []) =
            (Ok 0, st)
        else
          e = ValueError "Missing column provided to 'parse_dates': 'timestamp'" ∧
          load_data INPUT_CSV (mkState (made garbage_fs) ["Loading data..."] [] []) =
            (Raise e, st)
    | _ => False
    end.
Proof.
  apply (schema_failures draws_all garbage_fs).
  - left. reflexivity.
  - left. reflexivity.
Defined.

(** ** Segments *)

Lemma select_fmap {A} (b : A → bool) (P : A → Prop) `{!∀ x, Decision (P x)} l :
  (∀ x, b x = bool_decide (P x)) → select l (b <$> l) = filter P l.
Proof.
  intros Hb. induction l as [|x l IH]; [done|]. csimpl.
  rewrite Hb, IH, filter_cons. by rewrite bool_decide_decide; destruct (decide (P x)).
Qed.

Lemma df_col_cells d name s :
  df_col d name = Some s →
  ∃ i, col_index name (columns d) = Some i ∧ s = col_cells i (rows d).
Proof.
  unfold df_col. destruct (col_index name (columns d)) as [i|]; [|done].
  intros [= <-]. eauto.
Qed.

Lemma search_rows_filter d i :
  rows (search_rows d (col_cells i (rows d))) =
    filter (λ r, is_search (cell_at i r)) (rows d).
Proof.
  unfold search_rows, df_mask, series_eq, str_lower, col_cells. cbn [rows].
  rewrite <-!list_fmap_compose. apply select_fmap.
  intros r. unfold compose, is_search. destruct (cell_at i r) as [v|]; simpl.
  - apply bool_decide_ext. split; [by intros ->|by intros [= ->]].
  - done.
Qed.

Lemma download_rows_filter d i :
  rows (download_rows d (col_cells i (rows d))) =
    filter (λ r, is_download (cell_at i r)) (rows d).
Proof.
  unfold download_rows, df_mask, isin, str_lower, col_cells. cbn [rows].
  rewrite <-!list_fmap_compose. apply select_fmap.
  intros r. unfold compose, is_download. destruct (cell_at i r) as [v|]; simpl.
  - apply bool_decide_ext. rewrite !elem_of_cons, elem_of_nil.
    split; [intros [->|[->|[]]]; eauto|intros [[= ->]|[= ->]]; eauto].
  - done.
Qed.

Lemma total_searches_line df action :
  ("<li><strong>total_searches:</strong> " +:+
     pretty (length (rows (search_rows df action))) +:+ "</li>")
    ∈ report_of df action.
Proof.
  unfold report_of, report_lines, stats_of. rewrite !elem_of_app. right; left.
  apply list_elem_of_fmap. eexists. split; [|do 2 right; left]. done.
Qed.

Lemma total_events_line df action :
  ("<li><strong>total_events:</strong> " +:+ pretty (length (rows df)) +:+ "</li>")
    ∈ report_of df action.
Proof.
  unfold report_of, report_lines, stats_of. rewrite !elem_of_app. right; left.
  apply list_elem_of_fmap. eexists. split; [|left]. done.
Qed.

(** X19: in a run that completes, the search segment is the rows of the
    table whose action, lowercased, is search, the download segment the
    rows whose action, lowercased, is download or downloaded, both in the
    order of the table; a row of neither kind is in neither segment; and
    the report gives the number of rows of the search segment, whatever
    their [term], as total_searches. *)
Theorem segments_by_action (B : Backend) (f : gmap string Node) (st : State) :
  run B f = (Ok (), st) →
  ∃ df i S D,
    f !! INPUT_CSV = Some (CsvFile (Some df)) ∧
    col_index "action" (columns df) = Some i ∧
    heap st = [df; S; D] ∧
    columns S = columns df ∧ columns D = columns df ∧
    rows S = filter (λ r, is_search (cell_at i r)) (rows df) ∧
    rows D = filter (λ r, is_download (cell_at i r)) (rows df) ∧
    (∀ r, r ∈ rows df → ¬ is_search (cell_at i r) → ¬ is_download (cell_at i r) →
       (r ∉ rows S) ∧ (r ∉ rows D)) ∧
    (∃ lines, fs st !! report_html = Some (TextFile (join newline lines)) ∧
       ("<li><strong>total_searches:</strong> " +:+ pretty (length (rows S)) +:+ "</li>")
         ∈ lines).
Proof.
  intros (df & action & Hc & ->)%run_ok_inv.
  destruct Hc as (_ & Hin & _ & Hact & _).
  apply df_col_cells in Hact as (i & Hi & ->).
  exists df, i, (search_rows df (col_cells i (rows df))),
    (download_rows df (col_cells i (rows df))).
  split_and!; try done.
  - apply search_rows_filter.
  - apply download_rows_filter.
  - intros r _ Hs Hd. rewrite search_rows_filter, download_rows_filter.
    rewrite !list_elem_of_filter. tauto.
  - eexists. split; [apply final_report|apply total_searches_line].
Qed.

Lemma segments_by_action_witness :
  let st := (run draws_all sample_fs).2 in
  ∃ df i S D,
    sample_fs !! INPUT_CSV = Some (CsvFile (Some df)) ∧
    col_index "action" (columns df) = Some i ∧
    heap st = [df; S; D] ∧
    columns S = columns df ∧ columns D = columns df ∧
    rows S = filter (λ r, is_search (cell_at i r)) (rows df) ∧
    rows D = filter (λ r, is_download (cell_at i r)) (rows df) ∧
    (∀ r, r ∈ rows df → ¬ is_search (cell_at i r) → ¬ is_download (cell_at i r) →
       (r ∉ rows S) ∧ (r ∉ rows D)) ∧
    (∃ lines, fs st !! report_html = Some (TextFile (join newline lines)) ∧
       ("<li><strong>total_searches:</strong> " +:+ pretty (length (rows S)) +:+ "</li>")
         ∈ lines).
Proof.
  apply (segments_by_action draws_all sample_fs). vm_compute. reflexivity.
Defined.

Example sample_total_searches :
  ∃ lines, fs (run draws_all sample_fs).2 !! report_html
             = Some (TextFile (join newline lines)) ∧
    "<li><strong>total_searches:</strong> 4</li>" ∈ lines ∧
    top (dropna [Some "bail"; Some "writ"; Some "bail"; None]) 10
      = [(Some "bail", 2); (Some "writ", 1)].
Proof.
  exists (report_of sample_df (col_cells 1 (rows sample_df))).
  split_and!; [by vm_compute| |by vm_compute].
  by apply (bool_decide_unpack _).
Qed.

(** ** Charts and their sections *)

Lemma written_final f df action :
  written (final_state f df action) =
    when (terms_chart df action) terms_png ++ when (forms_chart df action) forms_png
    ++ when (categories_chart df) categories_png ++ [report_html].
Proof. done. Qed.







(** ** The categories chart *)





(** on the sample log the category civil is counted three times, once on a
    search, once on a download and once on a view *)
Example sample_categories :
  fs (run draws_all sample_fs).2 !! categories_png =
    Some (PngFile (mkFigure "Top Categories" "Category" "Count"
            [(Some "civil", 3); (Some "family", 2); (Some "criminal", 1)])) ∧
  fs (run draws_all sample_fs).2 !! terms_png =
    Some (PngFile (mkFigure "Top Searched Legal Terms" "Term" "Count"
            [(Some "bail", 2); (Some "writ", 1)])).
Proof. split; by vm_compute. Qed.

(** ** Running again *)

Lemma save_id path c (g : gmap string Node) :
  (∀ fig, c = Some fig → g !! path = Some (PngFile fig)) → save path c g = g.
Proof.
  destruct c as [fig|]; simpl; [|done]. intros H. by apply insert_id, H.
Qed.

Lemma made_id (g : gmap string Node) : g !! OUT_DIR = Some Dir → made g = g.
Proof. intros H. unfold made. by rewrite H. Qed.

(** a run started on what a completed run left behind ends in the same state *)
Lemma final_state_again f df action :
  f !! OUT_DIR = None ∨ f !! OUT_DIR = Some Dir →
  final_state (fs (final_state f df action)) df action = final_state f df action.
Proof.
  intros Hout. set (g := fs (final_state f df action)).
  assert (fs (final_state g df action) = g) as Hfs.
  { unfold final_state at 1. cbn [fs].
    rewrite made_id by (by apply final_outdir).
    rewrite (save_id terms_png).
    2:{ intros fig Hc. unfold g. by rewrite final_terms, Hc. }
    rewrite (save_id forms_png).
    2:{ intros fig Hc. unfold g. by rewrite final_forms, Hc. }
    rewrite (save_id categories_png).
    2:{ intros fig Hc. unfold g. by rewrite final_categories, Hc. }
    apply insert_id. unfold g. apply final_report. }
  transitivity (mkState (fs (final_state g df action))
                  (stdout (final_state f df action))
                  (written (final_state f df action))
                  (heap (final_state f df action))); [reflexivity|].
  rewrite Hfs. unfold g. by destruct (final_state f df action).
Qed.

Lemma completes_again B f df action :
  completes B f df action →
  completes B (fs (final_state f df action)) df action.
Proof.
  intros (Hout & Hin & Hts & Hact & H1 & H2 & H3 & Hrep & Htxt).
  split_and!; try done.
  - right. by apply final_outdir.
  - by rewrite final_input.
  - destruct (terms_chart df action) as [fig|] eqn:Hc; [|done].
    destruct H1 as [HB _]. split; [done|]. rewrite final_terms, Hc. done.
  - destruct (forms_chart df action) as [fig|] eqn:Hc; [|done].
    destruct H2 as [HB _]. split; [done|]. rewrite final_forms, Hc. done.
  - destruct (categories_chart df) as [fig|] eqn:Hc; [|done].
    destruct H3 as [HB _]. split; [done|]. rewrite final_categories, Hc. done.
  - by rewrite final_report.
Qed.

(** C7: a run that completes is repeatable.  Started again on the file
    system it left, the script completes again in the very same state: the
    same report with the same statistics, the same image files with the
    same ranked tables.  And any completed run on a file system with the
    same input file, whatever else is on it, prints, writes and ranks the
    same. *)
Theorem rerun_identical (B : Backend) (f : gmap string Node) (st : State) :
  run B f = (Ok (), st) →
  run B (fs st) = (Ok (), st) ∧
  (∀ g st', g !! INPUT_CSV = f !! INPUT_CSV → run B g = (Ok (), st') →
     stdout st' = stdout st ∧ written st' = written st ∧ heap st' = heap st ∧
     ∀ p, p ∈ written st → fs st' !! p = fs st !! p).
Proof.
  intros (df & action & Hc & ->)%run_ok_inv. split.
  - rewrite (run_completes B _ df action) by (by apply completes_again).
    rewrite final_state_again; [done|]. by destruct Hc.
  - intros g st' Hg (df' & action' & Hc' & ->)%run_ok_inv.
    destruct Hc as (_ & Hin & _ & Hact & _).
    destruct Hc' as (_ & Hin' & _ & Hact' & _).
    rewrite Hg, Hin in Hin'. injection Hin' as <-.
    rewrite Hact in Hact'. injection Hact' as <-.
    split_and!; [done..|].
    intros p Hp. rewrite written_final, !elem_of_app, list_elem_of_singleton in Hp.
    destruct Hp as [H|[H|[H|H]]].
    + destruct (terms_chart df action) eqn:Hch; [|by apply elem_of_nil in H].
      apply list_elem_of_singleton in H as ->. by rewrite !final_terms, Hch.
    + destruct (forms_chart df action) eqn:Hch; [|by apply elem_of_nil in H].
      apply list_elem_of_singleton in H as ->. by rewrite !final_forms, Hch.
    + destruct (categories_chart df) eqn:Hch; [|by apply elem_of_nil in H].
      apply list_elem_of_singleton in H as ->. by rewrite !final_categories, Hch.
    + subst p. by rewrite !final_report.
Qed.

Lemma rerun_identical_witness :
  let st := (run draws_all sample_fs).2 in
  run draws_all (fs st) = (Ok (), st) ∧
  (∀ g st', g !! INPUT_CSV = sample_fs !! INPUT_CSV → run draws_all g = (Ok (), st') →
     stdout st' = stdout st ∧ written st' = written st ∧ heap st' = heap st ∧
     ∀ p, p ∈ written st → fs st' !! p = fs st !! p).
Proof.
  apply (rerun_identical draws_all sample_fs). vm_compute. reflexivity.
Defined.

(** ** The source frame *)

Lemma filter_dangling (r : nat) st :
  heap st !! r = None →
  search_filter r st = (Raise (ReferenceError r), st) ∧
  download_filter r st = (Raise (ReferenceError r), st).
Proof.
  intros Hr. unfold search_filter, download_filter, getitem.
  rewrite !bind_unfold. unfold deref. by rewrite Hr.
Qed.

Lemma filters_keep (r : nat) st :
  ∀ st1 st2 (r1 r2 : Result nat),
    search_filter r st = (r1, st1) → download_filter r st1 = (r2, st2) →
    heap st `prefix_of` heap st1 ∧ heap st1 `prefix_of` heap st2 ∧
    fs st2 = fs st ∧ stdout st2 = stdout st ∧ written st2 = written st.
Proof.
  intros st1 st2 r1 r2.
  destruct (heap st !! r) as [d|] eqn:Hd.
  - rewrite (search_filter_eq r d) by done.
    destruct (df_col d "action") as [a|] eqn:Ha;
      [case_bool_decide as Htxt|]; intros [= <- <-].
    + rewrite (download_filter_eq r d) by (by apply lookup_app_l_Some).
      rewrite Ha, bool_decide_true by done.
      intros [= <- <-]. cbn [heap fs stdout written].
      split_and!; [by eexists|by eexists|done..].
    + rewrite (download_filter_eq r d) by done.
      rewrite Ha, bool_decide_false by done. by intros [= <- <-].
    + rewrite (download_filter_eq r d) by done.
      rewrite Ha. by intros [= <- <-].
  - destruct (filter_dangling r st Hd) as [-> Hdl]. intros [= <- <-].
    rewrite Hdl. by intros [= <- <-].
Qed.

(** C8: the two segment filters only add frames.  Every frame object of
    the process, the source table among them, is after both filters what it
    was before, and so is the file system; on a table whose [action]
    column holds text each filter returns a new object.  At the end of a run that
    completes the first frame of the process is still the table that was
    loaded. *)
Theorem filters_leave_source (r : nat) (st : State) :
  let st1 := (search_filter r st).2 in
  let st2 := (download_filter r st1).2 in
  heap st `prefix_of` heap st1 ∧ heap st1 `prefix_of` heap st2 ∧
  (∀ k d, heap st !! k = Some d → heap st1 !! k = Some d ∧ heap st2 !! k = Some d) ∧
  fs st2 = fs st ∧
  (∀ d a, heap st !! r = Some d → df_col d "action" = Some a →
     "action" ∈ text_columns d →
     search_filter r st =
       (Ok (length (heap st)),
        mkState (fs st) (stdout st) (written st) (heap st ++ [search_rows d a])) ∧
     download_filter r st1 =
       (Ok (S (length (heap st))),
        mkState (fs st) (stdout st) (written st)
          ((heap st ++ [search_rows d a]) ++ [download_rows d a])) ∧
     length (heap st) ≠ r ∧ S (length (heap st)) ≠ r) ∧
  (∀ B f st' df, f !! INPUT_CSV = Some (CsvFile (Some df)) →
     run B f = (Ok (), st') → heap st' !! 0 = Some df).
Proof.
  intros st1 st2.
  destruct (search_filter r st) as [r1 s1] eqn:H1.
  destruct (download_filter r s1) as [r2 s2] eqn:H2.
  destruct (filters_keep r st s1 s2 r1 r2 H1 H2) as (P1 & P2 & Hfs & _).
  subst st1 st2. cbn [snd]. rewrite H2. cbn [snd].
  split_and!; [done|done| |done| |].
  - intros k d Hk. destruct P1 as [l1 E1], P2 as [l2 E2].
    rewrite E2, E1.
    split; [by apply lookup_app_l_Some|by do 2 apply lookup_app_l_Some].
  - intros d a Hd Ha Htxt.
    rewrite (search_filter_eq r d) in H1 by done.
    rewrite Ha, bool_decide_true in H1 by done.
    injection H1 as <- <-. split; [done|].
    rewrite (download_filter_eq r d) in H2 by (by apply lookup_app_l_Some).
    rewrite Ha, bool_decide_true in H2 by done.
    injection H2 as <- <-. cbn [heap fs stdout written].
    rewrite length_app. cbn [length]. rewrite Nat.add_1_r.
    split; [done|]. apply lookup_lt_Some in Hd. lia.
  - intros B f st' df Hin (df' & action & Hc & ->)%run_ok_inv.
    destruct Hc as (_ & Hin' & _). rewrite Hin in Hin'. by injection Hin' as <-.
Qed.

(** the filters on the sample log: the table is the first frame before and
    after *)
Example sample_source_unchanged :
  let st := mkState sample_fs [] [] [sample_df] in
  heap (download_filter 0 (search_filter 0 st).2).2 !! 0 = Some sample_df ∧
  length (heap (download_filter 0 (search_filter 0 st).2).2) = 3.
Proof. split; by vm_compute. Qed.

(** ** Runs that stop short *)

Lemma bind_raise_inv {A C} (m : M A) (k : A → M C) st e st2 :
  (m ≫= k) st = (Raise e, st2) →
  m st = (Raise e, st2) ∨ ∃ a st1, m st = (Ok a, st1) ∧ k a st1 = (Raise e, st2).
Proof.
  rewrite bind_unfold. destruct (m st) as [[a|e'] st1]; [eauto|].
  intros [= -> ->]. by left.
Qed.

Lemma chart_block_raise_inv B (dfr segr : nat) d seg col msg title fname xlabel st e st' :
  heap st !! dfr = Some d → heap st !! segr = Some seg →
  columns seg = columns d →
  xlabel ≠ "" →
  image_target (os_path_join OUT_DIR fname) = Some (os_path_join OUT_DIR fname) →
  dirname (os_path_join OUT_DIR fname) = OUT_DIR →
  fs st !! OUT_DIR = Some Dir →
  (has_column dfr col ≫= λ b : bool,
     if b then
       print msg;;
       series ← getitem segr col;
       p ← plot_and_save B (dropna series) title fname xlabel "Count" 10;
       mret (Some p)
     else mret None) st = (Raise e, st') →
  ∃ fig, chart seg col title xlabel = Some fig ∧
    chart_fails B (fs st) (os_path_join OUT_DIR fname) fig e ∧
    st' = mkState (fs st) (stdout st ++ [msg]) (written st) (heap st).
Proof.
  intros Hd Hseg Hcols Hx Himg Hpar Hout.
  rewrite (chart_block_eq _ _ _ d seg) by done.
  destruct (chart seg col title xlabel) as [fig|]; [|done]. cbn zeta.
  destruct (B (bars fig)) as [e'|] eqn:HB.
  - intros [= -> <-]. exists fig. split_and!; [done|by left|done].
  - destruct (fs st !! os_path_join OUT_DIR fname) as [[]|] eqn:Hp; try done.
    intros [= <- <-]. exists fig. split_and!; [done|right; by split_and!|done].
Qed.

Lemma chart_fails_fs B (f g : gmap string Node) path fig e :
  g !! path = f !! path → chart_fails B g path fig e → chart_fails B f path fig e.
Proof. intros Hp [?|(? & ? & ?)]; [by left|right]. by rewrite <-Hp. Qed.

(** A run that ends in an exception ended in one of the ways of [Aborts]. *)
Lemma run_raise_inv B (f : gmap string Node) e st :
  run B f = (Raise e, st) → Aborts B f e st.
Proof.
  unfold run, script. rewrite bind_unfold, makedirs_eq. st_simpl. intros H.
  destruct (decide (f !! OUT_DIR = None ∨ f !! OUT_DIR = Some Dir)) as [Hout|Hout].
  2:{ destruct (f !! OUT_DIR) as [n|] eqn:Hn; [|by destruct Hout; left].
      destruct n; try (by destruct Hout; right);
        injection H as <- <-; by eapply abort_outdir. }
  pose proof (made_outdir f Hout) as Hdir.
  assert (main B (mkState (made f) [] [] []) = (Raise e, st)) as Hmain.
  { by destruct Hout as [Heq|Heq]; rewrite Heq in H. }
  clear H. revert Hmain.
  unfold main. rewrite bind_unfold. unfold print at 1. st_simpl.
  rewrite bind_unfold, load_data_eq. st_simpl. rewrite lookup_made_ne by done.
  destruct (f !! INPUT_CSV) as [n|] eqn:Hin.
  2:{ intros [= <- <-]. by apply abort_missing. }
  destruct n as [|[df|]| |].
  { intros [= <- <-]. by apply abort_input_dir. }
  3,4: intros [= <- <-]; by eapply abort_parse.
  2:{ intros [= <- <-]. by eapply abort_parse. }
  case_bool_decide as Hts.
  2:{ intros [= <- <-]. by eapply abort_dates. }
  assert (loaded f df) as Hl by done.
  rewrite bind_unfold, (search_filter_eq _ df) by done.
  destruct (df_col df "action") as [action|] eqn:Hact.
  2:{ intros [= <- <-]. apply abort_action; [done|]. by apply df_col_None. }
  case_bool_decide as Htxt.
  2:{ intros [= <- <-]. apply abort_accessor; [done| |done].
      apply df_col_is_Some. by rewrite Hact. }
  st_simpl. rewrite bind_assoc.
  intros [Hb1|(p1 & st1 & Hb1 & H)]%bind_raise_inv.
  { apply (chart_block_raise_inv _ _ _ df (search_rows df action)) in Hb1
      as (fig & Hc & Hf & ->); [|done..].
    st_simpl_in Hf. rewrite path_terms in Hf.
    eapply abort_terms; [done..|].
    eapply chart_fails_fs; [|done]. by apply lookup_made_ne. }
  revert H.
  apply (chart_block_inv _ _ _ df (search_rows df action)) in Hb1
    as (H1 & -> & ->); [|done..].
  st_simpl. st_simpl_in H1. fold (terms_chart df action) in *. rewrite path_terms in *.
  apply (drawable_fs _ f) in H1; [|by apply lookup_made_ne].
  rewrite bind_unfold, (download_filter_eq _ df) by done.
  rewrite Hact, bool_decide_true by done. st_simpl.
  rewrite bind_assoc.
  intros [Hb2|(p2 & st2 & Hb2 & H)]%bind_raise_inv.
  { apply (chart_block_raise_inv _ _ _ df (download_rows df action)) in Hb2
      as (fig & Hc & Hf & ->); [|try done..]; [|st_simpl; by rewrite lookup_save_ne].
    st_simpl_in Hf. st_simpl. rewrite path_forms in Hf.
    eapply abort_forms; [done..|].
    eapply chart_fails_fs; [|done].
    rewrite lookup_save_ne by done. by apply lookup_made_ne. }
  revert H.
  apply (chart_block_inv _ _ _ df (download_rows df action)) in Hb2
    as (H2 & -> & ->); [|try done..]; [|st_simpl; by rewrite lookup_save_ne].
  st_simpl. st_simpl_in H2. fold (forms_chart df action) in *. rewrite path_forms in *.
  apply (drawable_fs _ f) in H2;
    [|rewrite lookup_save_ne by done; by apply lookup_made_ne].
  rewrite bind_assoc.
  intros [Hb3|(p3 & st3 & Hb3 & H)]%bind_raise_inv.
  { apply (chart_block_raise_inv _ _ _ df df) in Hb3
      as (fig & Hc & Hf & ->); [|try done..]; [|st_simpl; by rewrite !lookup_save_ne].
    st_simpl_in Hf. st_simpl. rewrite path_categories in Hf.
    rewrite <-!app_assoc.
    eapply abort_categories; [done..|].
    eapply chart_fails_fs; [|done].
    rewrite !lookup_save_ne by done. by apply lookup_made_ne. }
  revert H.
  apply (chart_block_inv _ _ _ df df) in Hb3 as (H3 & -> & ->);
    [|try done..]; [|st_simpl; by rewrite !lookup_save_ne].
  st_simpl. st_simpl_in H3. fold (categories_chart df) in *. rewrite path_categories in *.
  apply (drawable_fs _ f) in H3;
    [|rewrite !lookup_save_ne by done; by apply lookup_made_ne].
  rewrite (report_block_eq _ _ df (search_rows df action));
    [|try done..]; [|st_simpl; by rewrite !lookup_save_ne].
  st_simpl.
  rewrite !lookup_save_ne, lookup_made_ne by done.
  destruct (f !! report_html) as [[]|] eqn:Hrep; try done.
  intros [= <- <-]. rewrite <-!app_assoc. by apply abort_report.
Qed.

(** ** More on the ranked table *)

Lemma occurrences_pos (k : cell) (s : Series) : k ∈ s → (1 ≤ occurrences k s)%nat.
Proof.
  unfold occurrences. induction 1 as [k s|k c s Hk IH].
  - rewrite filter_cons, decide_True by done. simpl. lia.
  - rewrite filter_cons. destruct (decide (c = k)); simpl; lia.
Qed.

Lemma tally_elem (s : Series) k c :
  (k, c) ∈ tally s ↔ k ≠ None ∧ k ∈ s ∧ c = occurrences k s.
Proof.
  destruct (tally_inv_holds s) as [Hnd Hent Hall _]. split; [apply Hent|].
  intros (Hk & Hs & ->).
  apply Hall in Hs as ([k' c'] & -> & Hin)%list_elem_of_fmap; [|done].
  simpl in *. by destruct (Hent _ _ Hin) as (_ & _ & <-).
Qed.

Lemma sorted_tally_lookup (s : Series) k :
  k ≠ None → k ∈ s → ∃ i, sort_desc (tally s) !! i = Some (k, occurrences k s).
Proof.
  intros Hk Hs. apply list_elem_of_lookup. rewrite sort_desc_perm.
  by apply tally_elem.
Qed.

(** X1: every bar of a chart table is a value of the column, with the
    number of its occurrences in the column as its count; no bar has the
    count zero. *)
Theorem top_counts_exact (s : Series) (n : nat) k c :
  (k, c) ∈ top (dropna s) n →
  k ∈ s ∧ k ≠ None ∧ c = occurrences k s ∧ (1 ≤ c)%nat.
Proof.
  intros (Hk & Hs & ->)%top_entry. split_and!; [done..|]. by apply occurrences_pos.
Qed.

Lemma top_counts_exact_witness :
  let s := [Some "bail"; None; Some "writ"; Some "bail"] in
  Some "bail" ∈ s ∧ Some "bail" ≠ None ∧
  2 = occurrences (Some "bail") s ∧ (1 ≤ 2)%nat.
Proof.
  apply (top_counts_exact [Some "bail"; None; Some "writ"; Some "bail"] 10).
  vm_compute. left.
Defined.

(** X2: the table is the top of the counts: a value of the column is
    either in the table with its count, or the table is full and none of
    its counts is smaller than the count of that value. *)
Theorem top_is_top (s : Series) (n : nat) (k : cell) :
  k ≠ None → k ∈ s →
  (k, occurrences k s) ∈ top (dropna s) n ∨
  (length (top (dropna s) n) = n ∧
   ∀ k' c', (k', c') ∈ top (dropna s) n → (occurrences k s ≤ c')%nat).
Proof.
  intros Hk Hs. rewrite top_unfold, tally_dropna.
  destruct (sorted_tally_lookup s k Hk Hs) as [i Hi].
  destruct (decide (i < n)%nat) as [Hlt|Hge].
  - left. apply list_elem_of_lookup. exists i. by rewrite lookup_take_lt.
  - right. apply lookup_lt_Some in Hi as Hlen. split.
    + rewrite length_take. lia.
    + intros k' c' [j Hj]%list_elem_of_lookup.
      apply lookup_take_Some in Hj as [Hj Hjn].
      pose proof (StronglySorted_lookup desc _ j i _ _
                    (sort_desc_sorted (tally s)) Hj Hi) as Hd.
      unfold desc in Hd. simpl in Hd. apply Hd. lia.
Qed.

Lemma top_is_top_witness :
  let s := [Some "a"; Some "b"; Some "b"; Some "c"; Some "c"; Some "c"] in
  (Some "a", occurrences (Some "a") s) ∈ top (dropna s) 2 ∨
  (length (top (dropna s) 2) = 2 ∧
   ∀ k' c', (k', c') ∈ top (dropna s) 2 → (occurrences (Some "a") s ≤ c')%nat).
Proof.
  apply (top_is_top [Some "a"; Some "b"; Some "b"; Some "c"; Some "c"; Some "c"] 2).
  - discriminate.
  - left.
Defined.

Lemma distinct_elem (s : Series) c : c ∈ distinct s ↔ c ∈ s.
Proof.
  induction s as [|x s IH]; simpl; [done|].
  destruct (decide (x ∈ s)) as [Hx|Hx]; rewrite ?elem_of_cons, IH; [|done].
  split; [by right|]. by intros [->|?].
Qed.

Lemma distinct_NoDup (s : Series) : NoDup (distinct s).
Proof.
  induction s as [|x s IH]; simpl; [constructor|].
  destruct (decide (x ∈ s)); [done|]. constructor; [|done].
  by rewrite distinct_elem.
Qed.

(** the distinct values counted by [nunique] are the keys of the count *)
Lemma nunique_tally (s : Series) : nunique s = length (tally s).
Proof.
  unfold nunique. rewrite <-(length_fmap fst (tally s)).
  apply Permutation_length, NoDup_Permutation.
  - apply distinct_NoDup.
  - apply (inv_nodup _ _ (tally_inv_holds s)).
  - intros k. rewrite distinct_elem. unfold dropna.
    rewrite list_elem_of_filter, list_elem_of_fmap. split.
    + intros [Hk Hs]. exists (k, occurrences k s). split; [done|].
      by apply tally_elem.
    + intros ([k' c] & -> & (? & ? & _)%tally_elem). done.
Qed.

(** X3: a chart table has one bar for each of the first [top_n] distinct
    values: its keys are distinct and its length is the smaller of [top_n]
    and the number of distinct values of the column ([nunique]). *)
Theorem top_length_exact (s : Series) (n : nat) :
  NoDup (top (dropna s) n).*1 ∧
  length (top (dropna s) n) = (n `min` nunique s)%nat ∧
  (nunique s ≤ length (dropna s))%nat.
Proof.
  rewrite top_unfold, tally_dropna. split_and!.
  - rewrite fmap_take. eapply sublist_NoDup; [|apply sublist_take].
    rewrite sort_desc_perm. apply (inv_nodup _ _ (tally_inv_holds s)).
  - by rewrite length_take, sort_desc_perm, nunique_tally.
  - unfold nunique. generalize (dropna s). intros l.
    induction l as [|x l IH]; simpl; [done|].
    destruct (decide (x ∈ l)); simpl; lia.
Qed.

Lemma count_incr_sum (v : cell) (tbl : FrequencyTable) :
  sum_list (count_incr v tbl).*2 = S (sum_list tbl.*2).
Proof.
  induction tbl as [|[k c] tbl IH]; [done|]. cbn [count_incr].
  destruct (decide (k = v)); csimpl; [done|]. rewrite IH. unfold id. lia.
Qed.

Lemma tally_sum (s : Series) : sum_list (tally s).*2 = length (dropna s).
Proof.
  induction s as [|v s IH] using rev_ind; [done|].
  rewrite tally_snoc, dropna_snoc, length_app. destruct v as [w|]; simpl.
  - rewrite count_incr_sum, IH. lia.
  - rewrite IH. lia.
Qed.

Lemma sum_list_take (n : nat) (l : list nat) : (sum_list (take n l) ≤ sum_list l)%nat.
Proof.
  rewrite <-(take_drop n l) at 2. rewrite sum_list_with_app. lia.
Qed.

(** X4: counting loses nothing: the counts of [value_counts] add up to
    the number of values of the column that are not missing, and the bars
    of a chart table add up to at most that number, to exactly that number
    when the column has no more than [top_n] distinct values. *)
Theorem counts_add_up (s : Series) (n : nat) :
  sum_list (value_counts s).*2 = length (dropna s) ∧
  (sum_list (top (dropna s) n).*2 ≤ length (dropna s))%nat ∧
  ((nunique s ≤ n)%nat → sum_list (top (dropna s) n).*2 = length (dropna s)).
Proof.
  assert (sum_list (sort_desc (tally s)).*2 = length (dropna s)) as Hsum.
  { by rewrite sort_desc_perm, tally_sum. }
  rewrite top_unfold, tally_dropna. split_and!.
  - done.
  - rewrite fmap_take, <-Hsum. apply sum_list_take.
  - intros Hn. rewrite take_ge; [done|].
    by rewrite sort_desc_perm, <-nunique_tally.
Qed.

Lemma occurrences_perm (k : cell) (s s' : Series) :
  s ≡ₚ s' → occurrences k s = occurrences k s'.
Proof. intros Hp. unfold occurrences. by rewrite Hp. Qed.

(** X5: the counts do not depend on the order of the rows: two columns
    with the same cells in another order have the same value counts, up to
    the order of the entries (which only differs among equal counts or by
    the sort). *)
Theorem value_counts_perm (s s' : Series) :
  s ≡ₚ s' → value_counts s ≡ₚ value_counts s'.
Proof.
  intros Hp. unfold value_counts. rewrite !sort_desc_perm.
  apply NoDup_Permutation.
  - apply (NoDup_fmap_1 fst), (inv_nodup _ _ (tally_inv_holds s)).
  - apply (NoDup_fmap_1 fst), (inv_nodup _ _ (tally_inv_holds s')).
  - intros [k c]. rewrite !tally_elem, (occurrences_perm k s s') by done.
    by rewrite Hp.
Qed.

Lemma value_counts_perm_witness :
  value_counts [Some "a"; None; Some "b"; Some "a"]
    ≡ₚ value_counts [Some "b"; Some "a"; Some "a"; None].
Proof.
  apply (value_counts_perm [Some "a"; None; Some "b"; Some "a"]
           [Some "b"; Some "a"; Some "a"; None]).
  apply (bool_decide_unpack _). vm_compute. exact I.
Defined.

(** ** More on the segments *)

Lemma filter_disjoint_length {A} (P Q : A → Prop)
    `{!∀ x, Decision (P x)} `{!∀ x, Decision (Q x)} (l : list A) :
  (∀ x, P x → Q x → False) →
  (length (filter P l) + length (filter Q l) ≤ length l)%nat.
Proof.
  intros Hd. induction l as [|x l IH]; [done|].
  rewrite !filter_cons.
  destruct (decide (P x)), (decide (Q x)); simpl; [by destruct (Hd x)|lia..].
Qed.

Lemma search_not_download (c : cell) : is_search c → is_download c → False.
Proof. unfold is_search, is_download. intros -> [?|?]; discriminate. Qed.

(** X6: the two segments do not overlap and together are no larger than
    the table: no row is in both, and the number of search rows plus the
    number of download rows is at most the number of rows.  In particular
    the search segment is never larger than the table. *)
Theorem segments_disjoint (d : DataFrame) (i : nat) :
  let action := col_cells i (rows d) in
  let S := rows (search_rows d action) in
  let D := rows (download_rows d action) in
  (∀ r, r ∈ S → r ∈ D → False) ∧
  (length S + length D ≤ length (rows d))%nat ∧
  (∀ r, r ∈ S → r ∈ rows d) ∧ (∀ r, r ∈ D → r ∈ rows d).
Proof.
  intros action S D. subst S D action.
  rewrite search_rows_filter, download_rows_filter. split_and!.
  - intros r [Hs _]%list_elem_of_filter [Hd _]%list_elem_of_filter.
    by eapply search_not_download.
  - apply filter_disjoint_length. intros r. apply search_not_download.
  - by intros r [_ ?]%list_elem_of_filter.
  - by intros r [_ ?]%list_elem_of_filter.
Qed.

Lemma ascii_lower_idemp (c : ascii) : ascii_lower (ascii_lower c) = ascii_lower c.
Proof. by destruct c as [[] [] [] [] [] [] [] []]. Qed.

Lemma lower_idemp (s : string) : lower (lower s) = lower s.
Proof. induction s as [|c s IH]; simpl; [done|]. by rewrite ascii_lower_idemp, IH. Qed.

Lemma str_lower_idemp (s : Series) : str_lower (str_lower s) = str_lower s.
Proof.
  unfold str_lower. rewrite <-list_fmap_compose. apply list_fmap_ext.
  intros _ [v|] _; simpl; [|done]. by rewrite lower_idemp.
Qed.

(** X7: the segments only depend on the action up to letter case: two
    action columns that are equal once lowercased give the same segments;
    lowercasing is idempotent, so lowercasing the action column beforehand
    changes neither segment. *)
Theorem segments_case_insensitive (d : DataFrame) (a a' : Series) :
  str_lower a = str_lower a' →
  search_rows d a = search_rows d a' ∧
  download_rows d a = download_rows d a' ∧
  search_rows d (str_lower a) = search_rows d a ∧
  download_rows d (str_lower a) = download_rows d a.
Proof.
  intros Heq. unfold search_rows, download_rows.
  by rewrite str_lower_idemp, Heq.
Qed.

Lemma segments_case_insensitive_witness :
  let d := mkFrame ["timestamp"; "action"]
             [[Some "t1"; Some "SEARCH"]; [Some "t2"; Some "Download"];
              [Some "t3"; Some "view"]] ["action"] in
  let a := [Some "SEARCH"; Some "Download"; Some "view"] in
  let a' := [Some "search"; Some "DOWNLOAD"; Some "View"] in
  search_rows d a = search_rows d a' ∧
  download_rows d a = download_rows d a' ∧
  search_rows d (str_lower a) = search_rows d a ∧
  download_rows d (str_lower a) = download_rows d a.
Proof.
  apply (segments_case_insensitive
           (mkFrame ["timestamp"; "action"]
              [[Some "t1"; Some "SEARCH"]; [Some "t2"; Some "Download"];
               [Some "t3"; Some "view"]] ["action"])
           [Some "SEARCH"; Some "Download"; Some "view"]
           [Some "search"; Some "DOWNLOAD"; Some "View"]).
  reflexivity.
Defined.

(** ** The loader and the renderer on their own *)

(** X8: [load_data] reads and allocates, nothing else.  When it returns,
    the path holds a table with a [timestamp] column and the result is a
    new frame object holding that table; when it raises, the state is
    untouched.  In both cases the file system, the printed lines and the
    written paths are as before. *)
Theorem load_data_contract (path : string) (st : State) :
  let '(res, st') := load_data path st in
  fs st' = fs st ∧ stdout st' = stdout st ∧ written st' = written st ∧
  match res with
  | Ok r =>
      ∃ df, fs st !! path = Some (CsvFile (Some df)) ∧
        "timestamp" ∈ columns df ∧
        r = length (heap st) ∧ heap st' = heap st ++ [df] ∧
        heap st' !! r = Some df
  | Raise e =>
      st' = st ∧
      (fs st !! path = None →
         e = FileNotFoundError
               (path +:+ " not found. Provide a sample CSV as described in README."))
  end.
Proof.
  rewrite load_data_eq.
  destruct (fs st !! path) as [[|[df|]| |]|] eqn:Hp; try (by split_and!).
  case_bool_decide as Hts; [|by split_and!; try done].
  split_and!; [done..|]. exists df. split_and!; [done..|].
  cbn [heap]. by rewrite lookup_app_r, Nat.sub_diag.
Qed.

(** *** Paths under the output directory *)

Lemma chars_app (a b : string) : chars (a +:+ b) = chars a ++ chars b.
Proof. unfold chars. induction a as [|c a IH]; simpl; [done|]. by rewrite IH. Qed.

Lemma text_app (l k : list ascii) : text (l ++ k) = text l +:+ text k.
Proof. unfold text. induction l as [|c l IH]; simpl; [done|]. by rewrite IH. Qed.

Lemma chars_text (l : list ascii) : chars (text l) = l.
Proof. apply String.list_ascii_of_string_of_list_ascii. Qed.

Lemma text_chars (s : string) : text (chars s) = s.
Proof. apply String.string_of_list_ascii_of_string. Qed.

Lemma drop_until_app (c : ascii) l1 l2 :
  c ∉ l1 → drop_until c (l1 ++ c :: l2) = c :: l2.
Proof.
  induction l1 as [|x l1 IH]; simpl.
  - intros _. by rewrite decide_True.
  - intros [Hx Hl]%not_elem_of_cons. rewrite decide_False by done. by apply IH.
Qed.

Lemma strip_app (c d : ascii) l1 l2 :
  d ≠ c → strip c (l1 ++ d :: l2) = strip c l1 ++ d :: l2.
Proof.
  intros Hd. induction l1 as [|x l1 IH]; simpl.
  - by rewrite decide_False.
  - by destruct (decide (x = c)).
Qed.

Lemma strip_elem (c x : ascii) l : x ∈ strip c l → x ∈ l.
Proof.
  induction l as [|y l IH]; simpl; [done|].
  destruct (decide (y = c)); [|done]. intros Hx. right. by apply IH.
Qed.

(** a path made of the output directory and one more component lies in
    the output directory *)
Lemma dirname_chars (p : string) (y : list ascii) :
  chars p = chars OUT_DIR ++ "/"%char :: y → "/"%char ∉ y → dirname p = OUT_DIR.
Proof.
  intros Hp Hy. unfold dirname. rewrite Hp, reverse_app, reverse_cons, <-app_assoc.
  cbn [app]. rewrite drop_until_app by (by rewrite elem_of_reverse).
  reflexivity.
Qed.

Lemma join_plain (fname : string) :
  "/"%char ∉ chars fname → os_path_join OUT_DIR fname = OUT_DIR +:+ "/" +:+ fname.
Proof.
  intros Hf. unfold os_path_join. destruct fname as [|c s]; [done|].
  cbn in Hf. apply not_elem_of_cons in Hf as [Hc _].
  cbn [String.prefix]. destruct (Ascii.ascii_dec "/" c) as [<-|_]; done.
Qed.

Lemma chars_join_plain (fname : string) :
  "/"%char ∉ chars fname →
  chars (os_path_join OUT_DIR fname) = chars OUT_DIR ++ "/"%char :: chars fname.
Proof. intros Hf. by rewrite join_plain, !chars_app. Qed.

(** whatever [savefig] makes of a file name of one component, the file
    it writes lies in the output directory *)
Lemma image_target_dir (fname target : string) :
  "/"%char ∉ chars fname →
  image_target (os_path_join OUT_DIR fname) = Some target →
  dirname target = OUT_DIR.
Proof.
  intros Hf. unfold image_target. cbn zeta.
  case_bool_decide as Hext; [|case_bool_decide as Hfmt; [|done]]; intros [= <-].
  - apply (dirname_chars _
        (reverse (strip "." (reverse (chars fname))) ++ chars ".png")).
    + rewrite chars_app, chars_text, chars_join_plain by done.
      rewrite reverse_app, reverse_cons, <-app_assoc. cbn [app].
      rewrite strip_app by done.
      rewrite reverse_app, reverse_cons, reverse_involutive, <-!app_assoc. done.
    + rewrite not_elem_of_app. split.
      * rewrite elem_of_reverse. intros Hin%strip_elem. by rewrite elem_of_reverse in Hin.
      * by apply (bool_decide_unpack _).
  - by apply (dirname_chars _ (chars fname)); [apply chars_join_plain|].
Qed.

(** X9: [plot_and_save] is all or nothing.  For a file name of one
    component that asks for no image format other than PNG: when it
    returns, the result is the path of [fname] under the output directory,
    the backend drew the top-[top_n] table of the series, the output
    directory is there, and the file that [savefig] makes of that path (the
    path itself when it ends in [.png], the path with [.png] put after it
    when it has no extension) holds the chart with the title and labels
    given; it is the one path written, and no other path changed.  When it
    raises, the whole state is as before, and the exception is the one of
    the backend, the ValueError of an extension that is no image format, or
    the error of opening the file: the output directory is not there, is
    not a directory, or the file is a directory. *)
Theorem plot_and_save_contract (B : Backend) (series : Series)
    (title fname xlabel ylabel : string) (top_n : nat) (st : State) :
  "/"%char ∉ chars fname →
  (lower (text (extension fname)) ∈ savefig_formats →
     lower (text (extension fname)) = "png") →
  let path := os_path_join OUT_DIR fname in
  let fig := mkFigure title xlabel ylabel (top series top_n) in
  let '(res, st') := plot_and_save B series title fname xlabel ylabel top_n st in
  match res with
  | Ok p =>
      p = path ∧ B (top series top_n) = None ∧
      fs st !! OUT_DIR = Some Dir ∧
      ∃ target, image_target path = Some target ∧
        fs st !! target ≠ Some Dir ∧
        fs st' !! target = Some (PngFile fig) ∧
        (∀ q, q ≠ target → fs st' !! q = fs st !! q) ∧
        written st' = written st ++ [target] ∧
        stdout st' = stdout st ∧ heap st' = heap st
  | Raise e =>
      st' = st ∧
      (B (top series top_n) = Some e ∨
       B (top series top_n) = None ∧
       match image_target path with
       | None => ∃ msg, e = ValueError msg
       | Some target =>
           (fs st !! OUT_DIR = None ∧ e = FileNotFoundError target) ∨
           (∃ n, fs st !! OUT_DIR = Some n ∧ n ≠ Dir ∧
              e = NotADirectoryError target) ∨
           (fs st !! OUT_DIR = Some Dir ∧ fs st !! target = Some Dir ∧
              e = IsADirectoryError target)
       end)
  end.
Proof.
  intros Hplain _ path fig. unfold plot_and_save, bar_plot. rewrite bind_unfold.
  destruct (B (top series top_n)) as [e|] eqn:HB; cbn [raise mret M_ret].
  { split; [done|by left]. }
  rewrite bind_unfold. fold path.
  assert ((if bool_decide (xlabel = "") then "" else xlabel) = xlabel) as ->.
  { by case_bool_decide. }
  fold fig. unfold savefig.
  destruct (image_target path) as [target|] eqn:Ht.
  2:{ cbn [raise]. split; [done|right]. split; [done|]. eauto. }
  unfold write_node. cbn zeta.
  rewrite (image_target_dir fname target) by done.
  destruct (fs st !! OUT_DIR) as [n|] eqn:Hout.
  2:{ rewrite bool_decide_false by done. cbn [orb bool_decide decide_rel].
      rewrite bool_decide_false by (by vm_compute). cbn [orb].
      split; [done|right]. split; [done|]. by left. }
  destruct (decide (n = Dir)) as [->|Hn].
  2:{ rewrite (bool_decide_false (Some n = Some Dir)) by congruence.
      rewrite bool_decide_false by (by vm_compute). cbn [orb].
      split; [done|right]. split; [done|]. right; left. eauto. }
  rewrite (bool_decide_true (Some Dir = Some Dir)), orb_true_r by done.
  destruct (fs st !! target) as [m|] eqn:Hp.
  - destruct m; cbn [mret M_ret fs stdout written heap].
    all: try (split_and!; [done..|]; exists target;
              split_and!;
              [done|by rewrite Hp|by rewrite lookup_insert_eq
              |intros q Hq; by rewrite lookup_insert_ne|done|done|done]).
    split; [done|right]. split; [done|]. right; right. by split_and!.
  - cbn [mret M_ret fs stdout written heap].
    split_and!; [done..|]. exists target.
    split_and!;
      [done|by rewrite Hp|by rewrite lookup_insert_eq
      |intros q Hq; by rewrite lookup_insert_ne|done|done|done].
Qed.

Lemma plot_and_save_contract_witness :
  let st := mkState {[ OUT_DIR := Dir ]} [] [] [] in
  let path := os_path_join OUT_DIR "top_searched_terms.png" in
  let fig := mkFigure "Top Searched Legal Terms" "Term" "Count"
               (top [Some "bail"; Some "writ"; Some "bail"] 10) in
  let '(res, st') := plot_and_save draws_all [Some "bail"; Some "writ"; Some "bail"]
                       "Top Searched Legal Terms" "top_searched_terms.png"
                       "Term" "Count" 10 st in
  match res with
  | Ok p =>
      p = path ∧ draws_all (top [Some "bail"; Some "writ"; Some "bail"] 10) = None ∧
      fs st !! OUT_DIR = Some Dir ∧
      ∃ target, image_target path = Some target ∧
        fs st !! target ≠ Some Dir ∧
        fs st' !! target = Some (PngFile fig) ∧
        (∀ q, q ≠ target → fs st' !! q = fs st !! q) ∧
        written st' = written st ++ [target] ∧
        stdout st' = stdout st ∧ heap st' = heap st
  | Raise e =>
      st' = st ∧
      (draws_all (top [Some "bail"; Some "writ"; Some "bail"] 10) = Some e ∨
       draws_all (top [Some "bail"; Some "writ"; Some "bail"] 10) = None ∧
       match image_target path with
       | None => ∃ msg, e = ValueError msg
       | Some target =>
           (fs st !! OUT_DIR = None ∧ e = FileNotFoundError target) ∨
           (∃ n, fs st !! OUT_DIR = Some n ∧ n ≠ Dir ∧
              e = NotADirectoryError target) ∨
           (fs st !! OUT_DIR = Some Dir ∧ fs st !! target = Some Dir ∧
              e = IsADirectoryError target)
       end)
  end.
Proof.
  apply (plot_and_save_contract draws_all [Some "bail"; Some "writ"; Some "bail"]
           "Top Searched Legal Terms" "top_searched_terms.png" "Term" "Count" 10
           (mkState {[ OUT_DIR := Dir ]} [] [] [])).
  - apply (bool_decide_unpack _). vm_compute. exact I.
  - intros _. vm_compute. reflexivity.
Defined.

(** a file name without extension: the chart goes to the name with [.png]
    after it, while the path returned is the one without *)
Example name_without_extension :
  let r := plot_and_save draws_all [Some "bail"] "T" "chart" "x" "Count" 10
             (mkState {[ OUT_DIR := Dir ]} [] [] []) in
  r.1 = Ok "analytics_reports/chart" ∧
  written r.2 = ["analytics_reports/chart.png"] ∧
  fs r.2 !! "analytics_reports/chart" = None.
Proof. split_and!; by vm_compute. Qed.

(** an extension that is no image format, and an output directory that
    is not there: nothing is written *)
Example names_refused :
  let st := mkState {[ OUT_DIR := Dir ]} [] [] [] in
  (∃ msg, plot_and_save draws_all [Some "bail"] "T" "notes.txt" "x" "Count" 10 st
            = (Raise (ValueError msg), st)) ∧
  plot_and_save draws_all [Some "bail"] "T" "top.png" "x" "Count" 10
      (mkState ∅ [] [] [])
    = (Raise (FileNotFoundError "analytics_reports/top.png"), mkState ∅ [] [] []).
Proof. split; [eexists|]; by vm_compute. Qed.

(** ** Every run, completed or not *)

Lemma when_elem {A} (c : option Figure) (x y : A) :
  y ∈ when c x ↔ is_Some c ∧ y = x.
Proof.
  destruct c; simpl.
  - rewrite list_elem_of_singleton. split; [eauto|by intros [_ ?]].
  - split; [by intros ?%elem_of_nil|by intros [[? ?] _]].
Qed.

(** X10: the [timestamp] column is mandatory: a table without it does not
    load, whatever its other columns; the run stops on the ValueError of
    the date parser right after the first printed line, with nothing
    written. *)
Theorem timestamp_mandatory (B : Backend) (f : gmap string Node) (df : DataFrame) :
  f !! OUT_DIR = None ∨ f !! OUT_DIR = Some Dir →
  f !! INPUT_CSV = Some (CsvFile (Some df)) →
  "timestamp" ∉ columns df →
  run B f =
    (Raise (ValueError "Missing column provided to 'parse_dates': 'timestamp'"),
     mkState (made f) ["Loading data..."] [] []).
Proof.
  intros Hout Hin Hts. rewrite run_made by done. apply main_load_raise.
  rewrite load_data_eq. st_simpl.
  by rewrite lookup_made_ne, Hin, bool_decide_false.
Qed.

Lemma timestamp_mandatory_witness :
  run draws_all no_timestamp_fs =
    (Raise (ValueError "Missing column provided to 'parse_dates': 'timestamp'"),
     mkState (made no_timestamp_fs) ["Loading data..."] [] []).
Proof.
  apply (timestamp_mandatory draws_all no_timestamp_fs no_timestamp_df).
  - left. reflexivity.
  - reflexivity.
  - apply (bool_decide_unpack _). vm_compute. exact I.
Defined.

(** X11: a regular file where the output directory should be stops the
    script at its first statement: FileExistsError, before anything is
    printed, loaded or written, with the file system as it was. *)
Theorem outdir_is_file_fatal (B : Backend) (f : gmap string Node) (n : Node) :
  f !! OUT_DIR = Some n → n ≠ Dir →
  run B f = (Raise (FileExistsError OUT_DIR), mkState f [] [] []).
Proof. intros Hn Hd. by eapply run_not_made. Qed.

Lemma outdir_is_file_fatal_witness :
  run draws_all blocked_fs =
    (Raise (FileExistsError OUT_DIR), mkState blocked_fs [] [] []).
Proof.
  apply (outdir_is_file_fatal draws_all blocked_fs (TextFile "notes")).
  - reflexivity.
  - discriminate.
Defined.

(** X12: the exceptions of the script.  A run that ends in an exception
    ends in one raised by the plotting backend, in the ValueError of the
    date parser, in the AttributeError of the [.str] accessor on an
    [action] column that holds no text, or in one of: the FileExistsError
    of the output directory, the FileNotFoundError, IsADirectoryError or
    parser error of loading, the KeyError of the [action] column, or the
    IsADirectoryError of an output path.  No optional column ever gives a
    KeyError, and no frame reference dangles. *)
Theorem exceptions_of_run (B : Backend) (f : gmap string Node) (e : Exception)
    (st : State) :
  run B f = (Raise e, st) →
  (∃ t, B t = Some e) ∨
  (∃ msg, e = ValueError msg) ∨
  (∃ msg, e = AttributeError msg) ∨
  e ∈ [FileExistsError OUT_DIR; FileNotFoundError missing_msg;
       IsADirectoryError INPUT_CSV; ParserError INPUT_CSV;
       KeyError "action";
       IsADirectoryError terms_png; IsADirectoryError forms_png;
       IsADirectoryError categories_png; IsADirectoryError report_html].
Proof.
  intros Hrun%run_raise_inv.
  assert (∀ path fig, chart_fails B f path fig e →
            (∃ t, B t = Some e) ∨ e = IsADirectoryError path) as Hcf.
  { intros path fig [?|(_ & _ & ->)]; eauto. }
  destruct Hrun as [| | | | | | |df a fig e Hl Ha Ht Hc Hf
                    |df a fig e Hl Ha Ht H1 Hc Hf
                    |df a fig e Hl Ha Ht H1 H2 Hc Hf|];
    try (do 3 right; by apply (bool_decide_unpack _)).
  - right; left. eauto.
  - right; right; left. eauto.
  - destruct (Hcf _ _ Hf) as [?| ->]; [by left|do 3 right].
    by apply (bool_decide_unpack _).
  - destruct (Hcf _ _ Hf) as [?| ->]; [by left|do 3 right].
    by apply (bool_decide_unpack _).
  - destruct (Hcf _ _ Hf) as [?| ->]; [by left|do 3 right].
    by apply (bool_decide_unpack _).
Qed.

Lemma exceptions_of_run_witness :
  let e := AttributeError "Can only use .str accessor with string values!" in
  (∃ t, raises_on_empty t = Some e) ∨
  (∃ msg, e = ValueError msg) ∨
  (∃ msg, e = AttributeError msg) ∨
  e ∈ [FileExistsError OUT_DIR; FileNotFoundError missing_msg;
       IsADirectoryError INPUT_CSV; ParserError INPUT_CSV;
       KeyError "action";
       IsADirectoryError terms_png; IsADirectoryError forms_png;
       IsADirectoryError categories_png; IsADirectoryError report_html].
Proof.
  apply (exceptions_of_run raises_on_empty null_action_fs
           (AttributeError "Can only use .str accessor with string values!")
           (mkState (made null_action_fs) ["Loading data..."] [] [null_action_df])).
  vm_compute. reflexivity.
Defined.

Lemma outputs_ne (p : string) :
  p ∉ outputs →
  p ≠ OUT_DIR ∧ terms_png ≠ p ∧ forms_png ≠ p ∧ categories_png ≠ p ∧ report_html ≠ p.
Proof.
  unfold outputs. rewrite !not_elem_of_cons. intros (? & ? & ? & ? & ? & _).
  by split_and!.
Qed.

(** X13: the script touches its outputs only.  After every run, completed
    or stopped by an exception, each path other than the output directory
    and the four output files holds what it held before; the input file in
    particular is never changed. *)
Theorem untouched_paths (B : Backend) (f : gmap string Node) (p : string) :
  p ∉ outputs → fs (run B f).2 !! p = f !! p.
Proof.
  intros (Hd & H1 & H2 & H3 & H4)%outputs_ne.
  destruct (run B f) as [[[]|e] st] eqn:Hrun; cbn [snd].
  - apply run_ok_inv in Hrun as (df & action & _ & ->).
    unfold final_state. cbn [fs].
    by rewrite lookup_insert_ne, !lookup_save_ne, lookup_made_ne.
  - apply run_raise_inv in Hrun.
    destruct Hrun; unfold at_load; cbn [fs];
      by rewrite ?lookup_save_ne, ?lookup_made_ne.
Qed.

Lemma untouched_paths_witness :
  fs (run raises_on_empty null_forms_fs).2 !! INPUT_CSV = null_forms_fs !! INPUT_CSV.
Proof.
  apply (untouched_paths raises_on_empty null_forms_fs INPUT_CSV).
  apply (bool_decide_unpack _). vm_compute. exact I.
Defined.

(** X14: the report is the last thing written.  In every run, the report
    is among the written paths exactly when the run completed, and the
    closing line about saved reports is printed exactly then; a run stopped
    by an exception has written no report, whatever charts it wrote. *)
Theorem report_iff_completed (B : Backend) (f : gmap string Node) :
  (report_html ∈ written (run B f).2 ↔ (run B f).1 = Ok ()) ∧
  ("Report and charts saved to analytics_reports/" ∈ stdout (run B f).2
     ↔ (run B f).1 = Ok ()).
Proof.
  destruct (run B f) as [[[]|e] st] eqn:Hrun; cbn [fst snd].
  - apply run_ok_inv in Hrun as (df & action & _ & ->).
    unfold final_state. cbn [written stdout]. split; (split; [done|intros _]).
    + rewrite !elem_of_app, list_elem_of_singleton. tauto.
    + rewrite !elem_of_app. do 4 right. apply elem_of_cons. by left.
  - apply run_raise_inv in Hrun.
    split; (split; [|done]); intros Hin; exfalso;
      destruct Hrun; unfold at_load in Hin; cbn [written stdout] in Hin;
      repeat (apply elem_of_app in Hin as [Hin|Hin]);
      try (apply when_elem in Hin as [_ Hin]);
      try (revert Hin; by apply (bool_decide_unpack _));
      done.
Qed.

(** X15: what a run has written is on disk, even when the run is stopped
    by an exception afterwards: every written path is one of the three
    image paths and holds a chart, or is the report path and holds the
    report.  Charts written before a failure are not rolled back. *)
Theorem written_on_disk (B : Backend) (f : gmap string Node) (p : string) :
  p ∈ written (run B f).2 →
  (p ∈ [terms_png; forms_png; categories_png] ∧
   ∃ fig, fs (run B f).2 !! p = Some (PngFile fig)) ∨
  (p = report_html ∧ ∃ t, fs (run B f).2 !! p = Some (TextFile t)).
Proof.
  assert (∀ path c (g : gmap string Node), p ∈ when c path →
            p = path ∧ ∃ fig, c = Some fig ∧ save path c g !! p = Some (PngFile fig))
    as Hw.
  { intros path c g [[fig ->] ->]%when_elem. split; [done|]. exists fig.
    split; [done|]. simpl. by rewrite lookup_insert_eq. }
  destruct (run B f) as [[[]|e] st] eqn:Hrun; cbn [snd].
  - apply run_ok_inv in Hrun as (df & action & _ & ->).
    rewrite written_final, !elem_of_app, list_elem_of_singleton.
    intros [H|[H|[H|H]]].
    + apply when_elem in H as [[fig Hc] ->]. left.
      split; [by apply (bool_decide_unpack _)|]. exists fig.
      by rewrite final_terms, Hc.
    + apply when_elem in H as [[fig Hc] ->]. left.
      split; [by apply (bool_decide_unpack _)|]. exists fig.
      by rewrite final_forms, Hc.
    + apply when_elem in H as [[fig Hc] ->]. left.
      split; [by apply (bool_decide_unpack _)|]. exists fig.
      by rewrite final_categories, Hc.
    + subst p. right. split; [done|]. rewrite final_report. eauto.
  - apply run_raise_inv in Hrun.
    destruct Hrun; unfold at_load; cbn [written fs];
      try (by intros ?%elem_of_nil); rewrite ?elem_of_app.
    + intros Hpw. left. destruct (Hw _ _ (made f) Hpw) as (-> & fg & _ & Hfs).
      split; [by apply (bool_decide_unpack _)|]. eauto.
    + intros [Hpw|Hpw]; left.
      * destruct (Hw _ _ (made f) Hpw) as (-> & fg & _ & Hfs).
        split; [by apply (bool_decide_unpack _)|]. exists fg.
        by rewrite lookup_save_ne by done.
      * destruct (Hw _ _ (save terms_png (terms_chart df action) (made f)) Hpw)
          as (-> & fg & _ & Hfs).
        split; [by apply (bool_decide_unpack _)|]. eauto.
    + intros [Hpw|[Hpw|Hpw]]; left.
      * destruct (Hw _ _ (made f) Hpw) as (-> & fg & _ & Hfs).
        split; [by apply (bool_decide_unpack _)|]. exists fg.
        by rewrite 2!lookup_save_ne by done.
      * destruct (Hw _ _ (save terms_png (terms_chart df action) (made f)) Hpw)
          as (-> & fg & _ & Hfs).
        split; [by apply (bool_decide_unpack _)|]. exists fg.
        by rewrite lookup_save_ne by done.
      * destruct (Hw _ _ (save forms_png (forms_chart df action)
                            (save terms_png (terms_chart df action) (made f))) Hpw)
          as (-> & fg & _ & Hfs).
        split; [by apply (bool_decide_unpack _)|]. eauto.
Qed.

(** a backend that refuses the table of the second chart only *)
Example charts_not_rolled_back :
  let B : Backend := λ t, match t with
                          | [(Some "F7", _); _] => Some (PlotError "boom")
                          | _ => None
                          end in
  (run B sample_fs).1 = Raise (PlotError "boom") ∧
  written (run B sample_fs).2 = [terms_png] ∧
  fs (run B sample_fs).2 !! report_html = None.
Proof. split_and!; by vm_compute. Qed.

Lemma written_on_disk_witness :
  (terms_png ∈ [terms_png; forms_png; categories_png] ∧
   ∃ fig, fs (run draws_all sample_fs).2 !! terms_png = Some (PngFile fig)) ∨
  (terms_png = report_html ∧
   ∃ t, fs (run draws_all sample_fs).2 !! terms_png = Some (TextFile t)).
Proof.
  apply (written_on_disk draws_all sample_fs terms_png).
  apply (bool_decide_unpack _). vm_compute. exact I.
Defined.

(** ** The summary *)

Lemma unique_users_line df action :
  ("<li><strong>unique_users:</strong> " +:+
     match df_col df "user_id" with
     | Some u => pretty (nunique u)
     | None => "N/A"
     end +:+ "</li>")
    ∈ report_of df action.
Proof.
  unfold report_of, report_lines, stats_of. rewrite !elem_of_app. right; left.
  apply list_elem_of_fmap. eexists. split; [|right; left].
  unfold stat_line. cbn [fst snd]. by destruct (df_col df "user_id").
Qed.

Lemma length_dropna (s : Series) : (length (dropna s) ≤ length s)%nat.
Proof. apply length_filter. Qed.

Lemma nunique_le (s : Series) : (nunique s ≤ length s)%nat.
Proof.
  etrans; [|apply length_dropna]. unfold nunique. generalize (dropna s).
  intros l. induction l as [|x l IH]; simpl; [done|].
  destruct (decide (x ∈ l)); simpl; lia.
Qed.

Lemma df_col_length d name s : df_col d name = Some s → length s = length (rows d).
Proof.
  intros (i & _ & ->)%df_col_cells. unfold col_cells. by rewrite length_fmap.
Qed.

(** X16: the summary of a completed run.  The report gives the number of
    rows of the table as total_events; as unique_users it gives N/A when
    the table has no [user_id] column, and otherwise the number of distinct
    user ids that are not missing, which is the length of the value counts
    of that column and never more than total_events. *)
Theorem summary_stats (B : Backend) (f : gmap string Node) (st : State) :
  run B f = (Ok (), st) →
  ∃ df lines,
    f !! INPUT_CSV = Some (CsvFile (Some df)) ∧
    fs st !! report_html = Some (TextFile (join newline lines)) ∧
    ("<li><strong>total_events:</strong> " +:+ pretty (length (rows df)) +:+ "</li>")
      ∈ lines ∧
    ("user_id" ∉ columns df →
       "<li><strong>unique_users:</strong> N/A</li>" ∈ lines) ∧
    (∀ u, df_col df "user_id" = Some u →
       ("<li><strong>unique_users:</strong> " +:+ pretty (nunique u) +:+ "</li>")
         ∈ lines ∧
       nunique u = length (value_counts u) ∧
       (nunique u ≤ length (rows df))%nat).
Proof.
  intros (df & action & Hc & ->)%run_ok_inv.
  destruct Hc as (_ & Hin & _).
  exists df, (report_of df action).
  split_and!; [done|apply final_report|apply total_events_line|..].
  - intros Hu%df_col_None. pose proof (unique_users_line df action) as Hl.
    by rewrite Hu in Hl.
  - intros u Hu. pose proof (unique_users_line df action) as Hl.
    rewrite Hu in Hl. split_and!; [done| |].
    + unfold value_counts. by rewrite sort_desc_perm, nunique_tally.
    + rewrite <-(df_col_length _ _ _ Hu). apply nunique_le.
Qed.

Lemma summary_stats_witness :
  let st := (run draws_all sample_fs).2 in
  ∃ df lines,
    sample_fs !! INPUT_CSV = Some (CsvFile (Some df)) ∧
    fs st !! report_html = Some (TextFile (join newline lines)) ∧
    ("<li><strong>total_events:</strong> " +:+ pretty (length (rows df)) +:+ "</li>")
      ∈ lines ∧
    ("user_id" ∉ columns df →
       "<li><strong>unique_users:</strong> N/A</li>" ∈ lines) ∧
    (∀ u, df_col df "user_id" = Some u →
       ("<li><strong>unique_users:</strong> " +:+ pretty (nunique u) +:+ "</li>")
         ∈ lines ∧
       nunique u = length (value_counts u) ∧
       (nunique u ≤ length (rows df))%nat).
Proof.
  apply (summary_stats draws_all sample_fs). vm_compute. reflexivity.
Defined.

(** the sample log has three distinct users on seven events *)
Example sample_unique_users :
  "<li><strong>unique_users:</strong> 3</li>"
    ∈ report_of sample_df (col_cells 1 (rows sample_df)) ∧
  "<li><strong>total_events:</strong> 7</li>"
    ∈ report_of sample_df (col_cells 1 (rows sample_df)).
Proof. split; by apply (bool_decide_unpack _). Qed.




(** X18: the numbers of a completed run fit together: the bars of the
    terms chart add up to at most total_searches (to the search rows whose
    term is not missing, when the chart shows every term), the bars of the
    categories chart to at most total_events, and total_searches is at most
    total_events. *)
Theorem charts_within_totals (B : Backend) (f : gmap string Node) (st : State) :
  run B f = (Ok (), st) →
  ∃ df S D,
    f !! INPUT_CSV = Some (CsvFile (Some df)) ∧ heap st = [df; S; D] ∧
    (length (rows S) + length (rows D) ≤ length (rows df))%nat ∧
    (∀ term, df_col S "term" = Some term →
       ∃ fig, fs st !! terms_png = Some (PngFile fig) ∧
         (sum_list (bars fig).*2 ≤ length (dropna term))%nat ∧
         (length (dropna term) ≤ length (rows S))%nat ∧
         ((nunique term ≤ 10)%nat → sum_list (bars fig).*2 = length (dropna term))) ∧
    (∀ cat, df_col df "category" = Some cat →
       ∃ fig, fs st !! categories_png = Some (PngFile fig) ∧
         (sum_list (bars fig).*2 ≤ length (rows df))%nat).
Proof.
  intros (df & action & Hc & ->)%run_ok_inv.
  destruct Hc as (_ & Hin & _ & Hact & _).
  apply df_col_cells in Hact as (ia & Hia & ->).
  exists df, (search_rows df (col_cells ia (rows df))),
    (download_rows df (col_cells ia (rows df))).
  assert (∀ s n, sum_list (top (dropna s) n).*2 ≤ length (dropna s) ∧
            (nunique s ≤ n → sum_list (top (dropna s) n).*2 = length (dropna s)))%nat
    as Hsum.
  { intros s n. rewrite top_unfold, tally_dropna.
    assert (sum_list (sort_desc (tally s)).*2 = length (dropna s)) as Hs.
    { by rewrite sort_desc_perm, tally_sum. }
    split.
    - rewrite fmap_take, <-Hs. apply sum_list_take.
    - intros Hn. rewrite take_ge; [done|].
      by rewrite sort_desc_perm, <-nunique_tally. }
  split_and!; [done|done|..].
  - rewrite search_rows_filter, download_rows_filter.
    apply filter_disjoint_length. intros r. apply search_not_download.
  - intros term Ht. eexists. split.
    { rewrite final_terms. unfold terms_chart, chart. rewrite Ht. done. }
    cbn [bars]. destruct (Hsum term 10) as [Hle Heq]. split_and!; [done| |done].
    rewrite <-(df_col_length _ _ _ Ht). apply length_dropna.
  - intros cat Hcat. eexists. split.
    { rewrite final_categories. unfold categories_chart, chart. rewrite Hcat. done. }
    cbn [bars]. destruct (Hsum cat 10) as [Hle _].
    etrans; [done|]. rewrite <-(df_col_length _ _ _ Hcat). apply length_dropna.
Qed.

Lemma charts_within_totals_witness :
  let st := (run draws_all sample_fs).2 in
  ∃ df S D,
    sample_fs !! INPUT_CSV = Some (CsvFile (Some df)) ∧ heap st = [df; S; D] ∧
    (length (rows S) + length (rows D) ≤ length (rows df))%nat ∧
    (∀ term, df_col S "term" = Some term →
       ∃ fig, fs st !! terms_png = Some (PngFile fig) ∧
         (sum_list (bars fig).*2 ≤ length (dropna term))%nat ∧
         (length (dropna term) ≤ length (rows S))%nat ∧
         ((nunique term ≤ 10)%nat → sum_list (bars fig).*2 = length (dropna term))) ∧
    (∀ cat, df_col df "category" = Some cat →
       ∃ fig, fs st !! categories_png = Some (PngFile fig) ∧
         (sum_list (bars fig).*2 ≤ length (rows df))%nat).
Proof.
  apply (charts_within_totals draws_all sample_fs). vm_compute. reflexivity.
Defined.

(** ** Inputs that stop the run *)

Lemma aborts_no_report B (f : gmap string Node) e st :
  Aborts B f e st →
  (report_html ∉ written st) ∧
  fs st !! report_html = f !! report_html ∧
  ("Report and charts saved to analytics_reports/" ∉ stdout st).
Proof.
  intros Hrun. split_and!.
  - intros Hin. destruct Hrun; unfold at_load in Hin; cbn [written] in Hin;
      repeat (apply elem_of_app in Hin as [Hin|Hin]);
      try (apply when_elem in Hin as [_ Hin]);
      try (revert Hin; by apply (bool_decide_unpack _));
      done.
  - destruct Hrun; unfold at_load; cbn [fs];
      by rewrite ?lookup_save_ne, ?lookup_made_ne.
  - intros Hin. destruct Hrun; unfold at_load in Hin; cbn [stdout] in Hin;
      repeat (apply elem_of_app in Hin as [Hin|Hin]);
      try (apply when_elem in Hin as [_ Hin]);
      try (revert Hin; by apply (bool_decide_unpack _));
      done.
Qed.

(** C1: an empty table is not skipped; it stops the run.  [main] calls
    [plot_and_save] for every topic whose column is in the table, and
    [plot_and_save] hands the table to the bar plot without looking at its
    length.  With a plotting backend that raises on a table without bars,
    an input one of whose topics has its column and an empty table makes
    the run end in an exception: no report is written, the report path is
    as it was, and the closing line is not printed. *)
Theorem empty_table_aborts (B : Backend) (f : gmap string Node)
    (df : DataFrame) (action : Series) (fig : Figure) (e0 : Exception) :
  B [] = Some e0 →
  f !! INPUT_CSV = Some (CsvFile (Some df)) →
  df_col df "action" = Some action →
  Some fig ∈ [terms_chart df action; forms_chart df action; categories_chart df] →
  bars fig = [] →
  ∃ e st, run B f = (Raise e, st) ∧
    (report_html ∉ written st) ∧
    fs st !! report_html = f !! report_html ∧
    ("Report and charts saved to analytics_reports/" ∉ stdout st).
Proof.
  intros HB Hin Hact Hfig Hbars.
  destruct (run B f) as [[[]|e] st] eqn:Hrun.
  - exfalso. apply run_ok_inv in Hrun as (df' & action' & Hc & ->).
    destruct Hc as (_ & Hin' & _ & Hact' & H1 & H2 & H3 & _).
    rewrite Hin in Hin'. injection Hin' as <-.
    rewrite Hact in Hact'. injection Hact' as <-.
    rewrite !elem_of_cons, elem_of_nil in Hfig.
    destruct Hfig as [Heq|[Heq|[Heq|[]]]].
    + rewrite <-Heq in H1. destruct H1 as [H1 _]. congruence.
    + rewrite <-Heq in H2. destruct H2 as [H2 _]. congruence.
    + rewrite <-Heq in H3. destruct H3 as [H3 _]. congruence.
  - exists e, st. split; [done|]. apply run_raise_inv in Hrun.
    by apply (aborts_no_report B f e st).
Qed.

Lemma empty_table_aborts_witness :
  ∃ e st, run raises_on_empty null_forms_fs = (Raise e, st) ∧
    (report_html ∉ written st) ∧
    fs st !! report_html = null_forms_fs !! report_html ∧
    ("Report and charts saved to analytics_reports/" ∉ stdout st).
Proof.
  apply (empty_table_aborts raises_on_empty null_forms_fs null_forms_df
           (col_cells 1 (rows null_forms_df))
           (mkFigure "Top Downloaded Forms" "Form ID" "Count" [])
           (IndexError "index 0 is out of bounds for axis 0 with size 0")).
  - reflexivity.
  - reflexivity.
  - reflexivity.
  - apply (bool_decide_unpack _). vm_compute. exact I.
  - reflexivity.
Defined.

(** a [form_id] column that is missing on every download row: the run
    stops at the chart of the downloads; a table without rows: it stops at
    the first chart *)
Example empty_tables_stop_the_run :
  df_col (download_rows null_forms_df (col_cells 1 (rows null_forms_df))) "form_id"
    = Some [None; None] ∧
  top (dropna [None; None]) 10 = [] ∧
  run raises_on_empty null_forms_fs =
    (Raise (IndexError "index 0 is out of bounds for axis 0 with size 0"),
     mkState (made null_forms_fs)
       ["Loading data..."; "Computing most downloaded forms..."] []
       [null_forms_df;
        search_rows null_forms_df (col_cells 1 (rows null_forms_df));
        download_rows null_forms_df (col_cells 1 (rows null_forms_df))]) ∧
  run raises_on_empty zero_rows_fs =
    (Raise (IndexError "index 0 is out of bounds for axis 0 with size 0"),
     mkState (made zero_rows_fs)
       ["Loading data..."; "Computing most searched terms..."] []
       [zero_rows_df; search_rows zero_rows_df []]).
Proof. split_and!; by vm_compute. Qed.

(** C5: the segments exist only for an [action] column that holds text.
    Both filters go through the [.str] accessor of the column, which
    raises on a column of another kind: a column that is missing on every
    row, or one of numbers.  On such a table the run stops at the search
    filter with an AttributeError, before either segment is made; nothing
    is written and only the first line is printed. *)
Theorem nontext_action_aborts (B : Backend) (f : gmap string Node) (df : DataFrame) :
  f !! OUT_DIR = None ∨ f !! OUT_DIR = Some Dir →
  f !! INPUT_CSV = Some (CsvFile (Some df)) →
  "timestamp" ∈ columns df → "action" ∈ columns df →
  "action" ∉ text_columns df →
  ∃ msg, run B f =
    (Raise (AttributeError msg), mkState (made f) ["Loading data..."] [] [df]).
Proof.
  intros Hout Hin Hts Hcol Htxt. eexists.
  rewrite run_made by done.
  unfold main. rewrite bind_unfold. unfold print at 1. st_simpl.
  rewrite bind_unfold, load_data_eq. st_simpl.
  rewrite lookup_made_ne, Hin, bool_decide_true by done.
  rewrite bind_unfold, (search_filter_eq _ df) by done.
  apply df_col_is_Some in Hcol as [a Ha].
  by rewrite Ha, bool_decide_false.
Qed.

Lemma nontext_action_aborts_witness :
  ∃ msg, run draws_all null_action_fs =
    (Raise (AttributeError msg),
     mkState (made null_action_fs) ["Loading data..."] [] [null_action_df]).
Proof.
  apply (nontext_action_aborts draws_all null_action_fs null_action_df).
  - left. reflexivity.
  - reflexivity.
  - apply (bool_decide_unpack _). vm_compute. exact I.
  - apply (bool_decide_unpack _). vm_compute. exact I.
  - apply (bool_decide_unpack _). vm_compute. exact I.
Defined.

(** the same on a column of numbers *)
Example numeric_action_stops_the_run :
  run draws_all numeric_action_fs =
    (Raise (AttributeError "Can only use .str accessor with string values!"),
     mkState (made numeric_action_fs) ["Loading data..."] [] [numeric_action_df]).
Proof. by vm_compute. Qed.
